(** * Intent resolver of the storage layer (storage/intent_resolver.go)

    A shallow embedding of [processWriteIntentError], [maybePushTransactions],
    [processIntentsAsync] and [resolveIntents], together with the properties
    of the intent resolution subsystem that are checked against them.

    The resolver talks to four collaborators that live outside the file: the
    store's clock, the cluster client ([store.db]), the stopper (task pool) and
    the replica's write path ([addWriteCmd]).  They are taken as an interface
    ([Collaborators]) over an abstract [World]; every call the resolver makes
    on them is recorded, in program order, as an [Event].  Tracing spans,
    context deadlines and verbosity-gated [log.Infoc] lines have no influence
    on what is dispatched or returned and are left out. *)

From Stdlib Require Import List String ZArith Bool Lia Permutation.
From Stdlib Require Import Strings.Byte.
Import ListNotations.
Local Open Scope string_scope.
Local Open Scope list_scope.

(** ** Data model (package roachpb, as used by the resolver) *)

Module roachpb.

(** [roachpb.Key] is a byte slice. *)
Definition Key := list byte.

(** A transaction ID is a pointer to a UUID; [None] is the nil pointer. *)
Definition UUID := list byte.

Record Span := mkSpan { Span_Key : Key; Span_EndKey : Key }.

Record Timestamp := mkTimestamp { WallTime : Z; Logical : Z }.

Definition ZeroTimestamp : Timestamp := mkTimestamp 0%Z 0%Z.

Inductive TransactionStatus := PENDING | COMMITTED | ABORTED.

Definition TransactionStatus_eqb (a b : TransactionStatus) : bool :=
  match a, b with
  | PENDING, PENDING | COMMITTED, COMMITTED | ABORTED, ABORTED => true
  | _, _ => false
  end.

Inductive PushTxnType := PUSH_TIMESTAMP | PUSH_ABORT | PUSH_TOUCH.

Record TxnMeta := mkTxnMeta {
  TxnMeta_ID : option UUID;
  TxnMeta_Key : Key;
  TxnMeta_Epoch : Z;
  TxnMeta_Timestamp : Timestamp
}.

Definition ZeroTxnMeta : TxnMeta := mkTxnMeta None [] 0%Z ZeroTimestamp.

(** [Transaction] embeds [TxnMeta], so [h.Txn.ID] is the ID of the meta. *)
Record Transaction := mkTransaction {
  Txn_Meta : TxnMeta;
  Txn_Priority : Z;
  Txn_Status : TransactionStatus
}.

(** [UserPriority] is a float64 that the resolver only forwards to
    [MakePriority]; it is carried as its bit pattern. *)
Definition UserPriority := Z.

Record Header := mkHeader {
  Header_Timestamp : Timestamp;
  Header_Txn : option Transaction;
  Header_UserPriority : UserPriority
}.

Record Intent := mkIntent {
  Intent_Span : Span;
  Intent_Txn : TxnMeta;
  Intent_Status : TransactionStatus
}.

Record WriteIntentError := mkWriteIntentError {
  Intents : list Intent;
  Resolved : bool
}.

Inductive ErrorDetail :=
| DetailWriteIntent (wiErr : WriteIntentError)
| DetailOther (msg : string).

(** [roachpb.NewError] wraps a detail into a [*roachpb.Error]. *)
Record Error := NewError { GetDetail : ErrorDetail }.

Inductive Method :=
| Get | Put | ConditionalPut | Increment | Delete | DeleteRange | Scan
| BeginTransaction | EndTransaction | HeartbeatTxn | GC | PushTxn
| ResolveIntent | ResolveIntentRange.

Definition Method_eqb (a b : Method) : bool :=
  match a, b with
  | Get, Get | Put, Put | ConditionalPut, ConditionalPut
  | Increment, Increment | Delete, Delete | DeleteRange, DeleteRange
  | Scan, Scan | BeginTransaction, BeginTransaction
  | EndTransaction, EndTransaction | HeartbeatTxn, HeartbeatTxn
  | GC, GC | PushTxn, PushTxn | ResolveIntent, ResolveIntent
  | ResolveIntentRange, ResolveIntentRange => true
  | _, _ => false
  end.

(** The request that ran into the intents.  The resolver observes it only
    through [args.Method()] and [roachpb.IsReadOnly(args)]. *)
Record Args := mkArgs { Args_Method : Method; IsReadOnly : bool }.

Record PushTxnRequest := mkPushTxnRequest {
  Push_Span : Span;
  PusherTxn : Transaction;
  PusheeTxn : TxnMeta;
  PushTo : Timestamp;
  Now : Timestamp;
  PushType : PushTxnType
}.

Record ResolveIntentRequest := mkResolveIntentRequest {
  RI_Span : Span;
  RI_IntentTxn : TxnMeta;
  RI_Status : TransactionStatus;
  RI_Poison : bool
}.

Record ResolveIntentRangeRequest := mkResolveIntentRangeRequest {
  RIR_Span : Span;
  RIR_IntentTxn : TxnMeta;
  RIR_Status : TransactionStatus;
  RIR_Poison : bool
}.

Record GCRequest_GCKey := mkGCKey { GCKey_Key : Key; GCKey_Timestamp : Timestamp }.

Record GCRequest := mkGCRequest { GC_Span : Span; GC_Keys : list GCRequest_GCKey }.

(** The [roachpb.Request] values the resolver builds. *)
Inductive Request :=
| ReqPushTxn (req : PushTxnRequest)
| ReqResolveIntent (req : ResolveIntentRequest)
| ReqResolveIntentRange (req : ResolveIntentRangeRequest)
| ReqGC (req : GCRequest).

(** [BatchRequest.Add] appends to [Requests]; the batch header is unused. *)
Definition BatchRequest := list Request.

(** The inner value of a response union; only push responses are read. *)
Inductive Response :=
| RespPushTxn (pushee : Transaction)
| RespOther.

Definition BatchResponse := list Response.

End roachpb.
Import roachpb.

(** The resolver's view of its replica: the two containment tests and the
    descriptor's bounds. *)
Record Replica := mkReplica {
  ContainsKey : Key -> bool;
  ContainsKeyRange : Key -> Key -> bool;
  Desc_StartKey : Key;
  Desc_EndKey : Key
}.

(** [intentsWithArg] of the storage package. *)
Record intentsWithArg := mkIntentsWithArg {
  args : Args;
  intents : list Intent
}.

(** ** Effects *)

(** Closures handed to [Stopper.RunAsyncTask], as data: what each closure
    holds of its own.  The closure of [processIntentsAsync] owns the clock
    reading and the clone of the item's request; the item itself it reaches
    through the loop variable (see [processIntentsTask]). *)
Inductive Task :=
| TaskResolveLocal (ba : BatchRequest)
| TaskResolveRemote (reqs : list Request)
| TaskProcessIntents (now : Timestamp) (reqArgs : Args).

(** What the resolver does to the outside, in program order.  The boolean of
    [EvAddWriteCmd] tells whether the call's wait group was handed over. *)
Inductive Event :=
| EvClockNow
| EvMakePriority (p : UserPriority)
| EvRunWithResponse (reqs : list Request)
| EvRun (reqs : list Request)
| EvAddWriteCmd (ba : BatchRequest) (wg : bool)
| EvRunAsyncTask (t : Task) (accepted : bool)
| EvWarning (msg : string) (e : Error)
| EvWgAdd
| EvWgWait.

(** A Go call either returns or panics. *)
Inductive Outcome (A : Type) :=
| Ret (a : A)
| Panic (msg : string).
Arguments Ret {A} a.
Arguments Panic {A} msg.

(** The collaborators, over an abstract world that they may read and change. *)
Class Collaborators := {
  World : Type;
  (** [store.Clock().Now()] *)
  Clock_Now : World -> World * Timestamp;
  (** [roachpb.MakePriority] (it draws a random number) *)
  MakePriority : UserPriority -> World -> World * Z;
  (** [store.db.RunWithResponse(b)] *)
  db_RunWithResponse : list Request -> World -> World * (BatchResponse * option Error);
  (** [store.DB().Run(b)] *)
  db_Run : list Request -> World -> World * option Error;
  (** [r.addWriteCmd(ctx, ba, wg)]; the response is always discarded *)
  addWriteCmd : BatchRequest -> bool -> World -> World * option Error;
  (** [Stopper.RunAsyncTask]: false iff the stopper is draining *)
  RunAsyncTask : World -> World * bool;
  (** [keys.TransactionKey] *)
  TransactionKey : Key -> option UUID -> Key
}.

Section Resolver.
Context `{C : Collaborators}.

Definition M (A : Type) : Type := World -> World * list Event * Outcome A.

Definition ret {A} (a : A) : M A := fun w => (w, [], Ret a).

Definition bind {A B} (m : M A) (f : A -> M B) : M B :=
  fun w =>
    match m w with
    | (w1, ev1, Ret a) =>
        match f a w1 with
        | (w2, ev2, o) => (w2, ev1 ++ ev2, o)
        end
    | (w1, ev1, Panic msg) => (w1, ev1, Panic msg)
    end.

Definition emit (e : Event) : M unit := fun w => (w, [e], Ret tt).

Definition panic {A} (msg : string) : M A := fun w => (w, [], Panic msg).

Definition lift {A} (o : Outcome A) : M A := fun w => (w, [], o).

(** A call on a collaborator: the world moves and the call is recorded. *)
Definition call {A} (e : Event) (f : World -> World * A) : M A :=
  fun w => match f w with (w1, a) => (w1, [e], Ret a) end.

End Resolver.

Declare Scope go_scope.
Delimit Scope go_scope with go.
Notation "x <- m ;; k" := (bind m (fun x => k))
  (at level 100, m at next level, right associativity) : go_scope.
Notation "m ;;; k" := (bind m (fun _ => k))
  (at level 100, right associativity) : go_scope.
Local Open Scope go_scope.

Section ResolverCode.
Context `{C : Collaborators}.

Definition clockNow : M Timestamp := call EvClockNow Clock_Now.
Definition makePriority (p : UserPriority) : M Z :=
  call (EvMakePriority p) (MakePriority p).
Definition runWithResponse (reqs : list Request) : M (BatchResponse * option Error) :=
  call (EvRunWithResponse reqs) (db_RunWithResponse reqs).
Definition run (reqs : list Request) : M (option Error) :=
  call (EvRun reqs) (db_Run reqs).
Definition replicaAddWriteCmd (ba : BatchRequest) (wg : bool) : M (option Error) :=
  call (EvAddWriteCmd ba wg) (addWriteCmd ba wg).
Definition runAsyncTask (t : Task) : M bool :=
  fun w => match RunAsyncTask w with
           | (w1, accepted) => (w1, [EvRunAsyncTask t accepted], Ret accepted)
           end.
Definition warning (msg : string) (e : Error) : M unit := emit (EvWarning msg e).

(** *** maybePushTransactions *)

(** The first loop: intents that are no longer pending are good to resolve,
    the others have to be pushed.  The accumulator is
    [(pushIntents, resolveIntents)]. *)
Definition splitPending (intents : list Intent) : list Intent * list Intent :=
  fold_left
    (fun acc intent =>
       if negb (TransactionStatus_eqb (Intent_Status intent) PENDING)
       then (fst acc, snd acc ++ [intent])
       else (fst acc ++ [intent], snd acc))
    intents ([], []).

Definition pushRequest (pusherTxn : Transaction) (h : Header) (now : Timestamp)
    (pushType : PushTxnType) (intent : Intent) : Request :=
  ReqPushTxn {|
    Push_Span := {| Span_Key := TxnMeta_Key (Intent_Txn intent); Span_EndKey := [] |};
    PusherTxn := pusherTxn;
    PusheeTxn := Intent_Txn intent;
    PushTo := Header_Timestamp h;
    Now := now;
    PushType := pushType
  |}.

(** [intent.Txn = pushee.TxnMeta; intent.Status = pushee.Status] on the
    loop's copy of the intent. *)
Definition withPushee (intent : Intent) (pushee : Transaction) : Intent :=
  {| Intent_Span := Intent_Span intent;
     Intent_Txn := Txn_Meta pushee;
     Intent_Status := Txn_Status pushee |}.

(** The last loop, [for i, intent := range pushIntents]: [br.Responses[i]]
    panics when out of range and the type assertion panics on anything but
    a push response. *)
Fixpoint mergeResponses (responses : BatchResponse) (i : nat)
    (pushIntents resolveIntents : list Intent) : Outcome (list Intent) :=
  match pushIntents with
  | [] => Ret resolveIntents
  | intent :: rest =>
      match nth_error responses i with
      | None => Panic "index out of range"
      | Some (RespPushTxn pushee) =>
          mergeResponses responses (S i) rest
            (resolveIntents ++ [withPushee intent pushee])
      | Some RespOther => Panic "interface conversion"
      end
  end.

(** [if pusherTxn == nil { pusherTxn = &roachpb.Transaction{Priority: ...} }] *)
Definition pusherOf (pusherTxn : option Transaction) (h : Header) : M Transaction :=
  match pusherTxn with
  | Some txn => ret txn
  | None =>
      p <- makePriority (Header_UserPriority h) ;;
      ret {| Txn_Meta := ZeroTxnMeta; Txn_Priority := p; Txn_Status := PENDING |}
  end.

Definition maybePushTransactions (intents : list Intent) (h : Header)
    (pushType : PushTxnType) : M (list Intent * option Error) :=
  let pusherTxn := Header_Txn h in
  let pushIntents := fst (splitPending intents) in
  let resolveIntents := snd (splitPending intents) in
  now <- clockNow ;;
  pusherTxn <- pusherOf pusherTxn h ;;
  let pushReqs := map (pushRequest pusherTxn h now pushType) pushIntents in
  res <- runWithResponse pushReqs ;;
  match snd res with
  | Some err => ret ([], Some err)
  | None =>
      resolveIntents <- lift (mergeResponses (fst res) 0 pushIntents resolveIntents) ;;
      ret (resolveIntents, None)
  end.

(** *** resolveIntents *)

(** The body of the loop over the intents: the resolve request built for
    one intent and whether the intent lives on this range. *)
Definition resolveArgs (r : Replica) (poison : bool) (intent : Intent) : Request * bool :=
  if Nat.eqb (List.length (Span_EndKey (Intent_Span intent))) 0
  then (ReqResolveIntent {|
          RI_Span := Intent_Span intent;
          RI_IntentTxn := Intent_Txn intent;
          RI_Status := Intent_Status intent;
          RI_Poison := poison |},
        ContainsKey r (Span_Key (Intent_Span intent)))
  else (ReqResolveIntentRange {|
          RIR_Span := Intent_Span intent;
          RIR_IntentTxn := Intent_Txn intent;
          RIR_Status := Intent_Status intent;
          RIR_Poison := poison |},
        ContainsKeyRange r (Span_Key (Intent_Span intent))
                           (Span_EndKey (Intent_Span intent))).

(** The loop itself; the accumulator is [(baLocal, reqsRemote)]. *)
Definition splitLocal (r : Replica) (poison : bool) (intents : list Intent)
    : BatchRequest * list Request :=
  fold_left
    (fun acc intent =>
       if snd (resolveArgs r poison intent)
       then (fst acc ++ [fst (resolveArgs r poison intent)], snd acc)
       else (fst acc, snd acc ++ [fst (resolveArgs r poison intent)]))
    intents ([], []).

(** [if wait || !RunAsyncTask(task) { if err := action(); err != nil { return err } }]:
    Go evaluates [RunAsyncTask] only when [wait] is false, and the action
    runs on the caller's task when [wait] holds or the stopper declined.
    The result is the error to return, if any. *)
Definition syncOrAsync (wait : bool) (t : Task) (action : M (option Error))
    : M (option Error) :=
  sync <- (if wait then ret true
           else (accepted <- runAsyncTask t ;; ret (negb accepted))) ;;
  if (sync : bool) then action else ret None.

(** The block guarded by [len(baLocal.Requests) > 0]. *)
Definition resolveLocal (wait : bool) (baLocal : BatchRequest) : M (option Error) :=
  if Nat.ltb 0 (List.length baLocal) then
    emit EvWgAdd ;;;
    syncOrAsync wait (TaskResolveLocal baLocal) (replicaAddWriteCmd baLocal true)
  else ret None.

(** The block guarded by [len(reqsRemote) > 0]. *)
Definition resolveRemote (wait : bool) (reqsRemote : list Request) : M (option Error) :=
  if Nat.ltb 0 (List.length reqsRemote) then
    syncOrAsync wait (TaskResolveRemote reqsRemote) (run reqsRemote)
  else ret None.

Definition resolveIntents (r : Replica) (intents : list Intent)
    (wait poison : bool) : M (option Error) :=
  let baLocal := fst (splitLocal r poison intents) in
  let reqsRemote := snd (splitLocal r poison intents) in
  localErr <- resolveLocal wait baLocal ;;
  match localErr with
  | Some err => ret (Some err)
  | None =>
      remoteErr <- resolveRemote wait reqsRemote ;;
      match remoteErr with
      | Some err => ret (Some err)
      | None => emit EvWgWait ;;; ret None
      end
  end.

(** *** processWriteIntentError *)

Definition hasTxnID (h : Header) : bool :=
  match Header_Txn h with
  | Some txn => match TxnMeta_ID (Txn_Meta txn) with Some _ => true | None => false end
  | None => false
  end.

Definition setResolved (wiErr : WriteIntentError) : WriteIntentError :=
  {| Intents := Intents wiErr; Resolved := true |}.

Definition processWriteIntentError (wiErr : WriteIntentError) (r : Replica)
    (args : Args) (h : Header) (pushType : PushTxnType) : M (option Error) :=
  let readOnly := IsReadOnly args in
  pushed <- maybePushTransactions (Intents wiErr) h pushType ;;
  resErr <- resolveIntents r (fst pushed) false true ;;
  match resErr with
  | Some e => warning "asynchronous resolveIntents failed" e
  | None => ret tt
  end ;;;
  match snd pushed with
  | Some pushErr =>
      if hasTxnID h && negb readOnly
      then ret (Some pushErr)
      else ret (Some (NewError (DetailWriteIntent wiErr)))
  | None =>
      ret (Some (NewError (DetailWriteIntent (setResolved wiErr))))
  end.

(** *** processIntentsAsync *)

(** The closure scheduled for one item.  [now] is the clock reading taken
    by [processIntentsAsync] before its loop and [reqArgs] the clone of the
    item's request made in the scheduling iteration.  The closure refers to
    the loop variable [item], which all iterations of the range loop share,
    and reads it when it runs: [atPush] is what the variable holds when
    [item.intents] is evaluated for the Pusher and [atGC] what it holds when
    [item.intents[0]] is evaluated for the GC request (the item of the
    scheduling iteration, or a later one once the loop has moved on). *)
Definition processIntentsTask (r : Replica) (now : Timestamp) (reqArgs : Args)
    (atPush atGC : intentsWithArg) : M unit :=
  let h := {| Header_Timestamp := now; Header_Txn := None; Header_UserPriority := 0%Z |} in
  pushed <- maybePushTransactions (intents atPush) h PUSH_TOUCH ;;
  pErr <- resolveIntents r (fst pushed) true false ;;
  match pErr with
  | Some e => warning "failed to resolve intents" e
  | None =>
      match snd pushed with
      | Some pushErr => warning "failed to push during intent resolution" pushErr
      | None =>
          if Method_eqb (Args_Method reqArgs) EndTransaction then
            txn <- match intents atGC with
                   | [] => panic "index out of range"
                   | intent :: _ => ret (Intent_Txn intent)
                   end ;;
            let gcArgs := {|
              GC_Span := {| Span_Key := Desc_StartKey r; Span_EndKey := Desc_EndKey r |};
              GC_Keys := [] ++ [ {| GCKey_Key := TransactionKey (TxnMeta_Key txn) (TxnMeta_ID txn);
                                    GCKey_Timestamp := ZeroTimestamp |} ]
            |} in
            pErr <- replicaAddWriteCmd [ReqGC gcArgs] false ;;
            match pErr with
            | Some e => warning "could not GC completed transaction" e
            | None => ret tt
            end
          else ret tt
      end
  end.

Fixpoint scheduleAll (now : Timestamp) (items : list intentsWithArg) : M unit :=
  match items with
  | [] => ret tt
  | item :: rest =>
      runAsyncTask (TaskProcessIntents now (args item)) ;;;
      scheduleAll now rest
  end.

Definition processIntentsAsync (r : Replica) (items : list intentsWithArg) : M unit :=
  if Nat.eqb (List.length items) 0 then ret tt
  else (now <- clockNow ;; scheduleAll now items).

(** What an accepted task does when the pool runs it; [atPush] and [atGC]
    are the readings of the loop variable by a [processIntentsAsync] task. *)
Definition runTask (r : Replica) (atPush atGC : intentsWithArg) (t : Task) : M unit :=
  match t with
  | TaskResolveLocal ba =>
      err <- replicaAddWriteCmd ba true ;;
      match err with
      | Some e => warning "unable to resolve local intents" e
      | None => ret tt
      end
  | TaskResolveRemote reqs =>
      err <- run reqs ;;
      match err with
      | Some e => warning "unable to resolve external intents" e
      | None => ret tt
      end
  | TaskProcessIntents now reqArgs => processIntentsTask r now reqArgs atPush atGC
  end.

End ResolverCode.

(** ** Reading a trace *)

(** The requests an event hands to a collaborator (or to the pool). *)
Definition requestsOf (e : Event) : list Request :=
  match e with
  | EvRunWithResponse reqs => reqs
  | EvRun reqs => reqs
  | EvAddWriteCmd ba _ => ba
  | EvRunAsyncTask (TaskResolveLocal ba) _ => ba
  | EvRunAsyncTask (TaskResolveRemote reqs) _ => reqs
  | _ => []
  end.

(** The poison flag of a resolve request; other requests have none. *)
Definition poisonOf (req : Request) : option bool :=
  match req with
  | ReqResolveIntent a => Some (RI_Poison a)
  | ReqResolveIntentRange a => Some (RIR_Poison a)
  | _ => None
  end.

(** Events that go through the task pool. *)
Definition isAsync (e : Event) : bool :=
  match e with EvRunAsyncTask _ _ => true | _ => false end.

(** Events that hand a batch to the cluster client's [Run]. *)
Definition isRun (e : Event) : bool :=
  match e with EvRun _ => true | _ => false end.

(** Events that hand a batch to the replica's write path. *)
Definition isWrite (e : Event) : bool :=
  match e with EvAddWriteCmd _ _ => true | _ => false end.

(** Events that dispatch a push batch. *)
Definition isPushBatch (e : Event) : bool :=
  match e with EvRunWithResponse _ => true | _ => false end.

Definition isPending (intent : Intent) : bool :=
  TransactionStatus_eqb (Intent_Status intent) PENDING.

(** The Pusher as the specification words it: every input intent, in input
    order, either kept as it is (already finalized) or rewritten from the
    push response that belongs to it (the k-th response for the k-th pending
    intent). *)
Fixpoint pushedInPlace (intents : list Intent) (pushees : list Transaction)
    : list Intent :=
  match intents with
  | [] => []
  | intent :: rest =>
      if isPending intent then
        match pushees with
        | pushee :: others =>
            {| Intent_Span := Intent_Span intent;
               Intent_Txn := Txn_Meta pushee;
               Intent_Status := Txn_Status pushee |}
            :: pushedInPlace rest others
        | [] => intent :: pushedInPlace rest []
        end
      else intent :: pushedInPlace rest pushees
  end.

(** The pushed intents paired, in order, with the pushees that came back. *)
Definition zipPushees (pushIntents : list Intent) (pushees : list Transaction)
    : list Intent :=
  map (fun ip => withPushee (fst ip) (snd ip)) (combine pushIntents pushees).

(** The events [resolveIntents] may produce for a given local batch and a
    given list of remote requests. *)
Definition resolveEvent (baLocal : BatchRequest) (reqsRemote : list Request)
    (e : Event) : Prop :=
  match e with
  | EvWgAdd | EvWgWait => True
  | EvAddWriteCmd ba wg => ba = baLocal /\ wg = true
  | EvRun reqs => reqs = reqsRemote
  | EvRunAsyncTask (TaskResolveLocal ba) _ => ba = baLocal
  | EvRunAsyncTask (TaskResolveRemote reqs) _ => reqs = reqsRemote
  | _ => False
  end.

(** The tasks handed to the pool, in order, accepted or not. *)
Definition scheduled (ev : list Event) : list Task :=
  flat_map (fun e => match e with EvRunAsyncTask t _ => [t] | _ => [] end) ev.

(** The GC request of the post-commit task for the transaction [txn]. *)
Definition gcRequest `{C : Collaborators} (r : Replica) (txn : TxnMeta) : Request :=
  ReqGC {|
    GC_Span := {| Span_Key := Desc_StartKey r; Span_EndKey := Desc_EndKey r |};
    GC_Keys := [ {| GCKey_Key := TransactionKey (TxnMeta_Key txn) (TxnMeta_ID txn);
                    GCKey_Timestamp := ZeroTimestamp |} ]
  |}.

(** The warning [processWriteIntentError] logs for a failed kick-off. *)
Definition kickOffWarning (resErr : option Error) : list Event :=
  match resErr with
  | Some e => [EvWarning "asynchronous resolveIntents failed" e]
  | None => []
  end.

(** The warning the post-commit task logs for a failed GC. *)
Definition gcWarning (gcErr : option Error) : list Event :=
  match gcErr with
  | Some e => [EvWarning "could not GC completed transaction" e]
  | None => []
  end.

(** ** A scripted cluster for the scenarios *)

Definition key (s : string) : Key := list_byte_of_string s.

(** [bytes.Compare(a, b) <= 0] *)
Fixpoint key_leb (a b : Key) : bool :=
  match a, b with
  | [], _ => true
  | _ :: _, [] => false
  | x :: a', y :: b' =>
      if N.ltb (Byte.to_N x) (Byte.to_N y) then true
      else if N.eqb (Byte.to_N x) (Byte.to_N y) then key_leb a' b'
      else false
  end.

Definition key_ltb (a b : Key) : bool := negb (key_leb b a).

(** Modelled from the spec: [Replica.ContainsKey] and
    [Replica.ContainsKeyRange] are not in intent_resolver.go.  A replica over
    the half-open range [[startKey, endKey)] contains a key inside the range,
    and contains a key range only when the whole of it lies inside. *)
Definition rangeReplica (startKey endKey : Key) : Replica := {|
  ContainsKey := fun k => key_leb startKey k && key_ltb k endKey;
  ContainsKeyRange := fun k e =>
    key_ltb k e && key_leb startKey k && key_leb e endKey;
  Desc_StartKey := startKey;
  Desc_EndKey := endKey
|}.

(** The state of the scripted cluster: what the clock shows and how each
    collaborator is going to answer. *)
Record Script := mkScript {
  wallClock : Z;
  pushOutcome : option TransactionStatus;
  writeFails : bool;
  runFails : bool;
  draining : bool
}.

Definition pushFailed : Error := NewError (DetailOther "failed to push").
Definition writeFailed : Error := NewError (DetailOther "write command failed").
Definition runFailed : Error := NewError (DetailOther "batch failed").

(** The scripted answer to one push: the pushee in the scripted status; a
    pushee left pending has its timestamp moved past [PushTo]. *)
Definition scriptedPush (st : TransactionStatus) (req : Request) : Response :=
  match req with
  | ReqPushTxn p =>
      RespPushTxn {|
        Txn_Meta :=
          match st with
          | PENDING =>
              {| TxnMeta_ID := TxnMeta_ID (PusheeTxn p);
                 TxnMeta_Key := TxnMeta_Key (PusheeTxn p);
                 TxnMeta_Epoch := TxnMeta_Epoch (PusheeTxn p);
                 TxnMeta_Timestamp :=
                   {| WallTime := WallTime (PushTo p) + 1; Logical := 0 |} |}
          | _ => PusheeTxn p
          end;
        Txn_Priority := 0;
        Txn_Status := st |}
  | _ => RespOther
  end.

Definition tick (w : Script) : Script :=
  {| wallClock := wallClock w + 1;
     pushOutcome := pushOutcome w;
     writeFails := writeFails w;
     runFails := runFails w;
     draining := draining w |}.

Definition scripted : Collaborators := {|
  World := Script;
  Clock_Now := fun w => (tick w, {| WallTime := wallClock w; Logical := 0 |});
  MakePriority := fun _ w => (w, 1%Z);
  db_RunWithResponse := fun reqs w =>
    (w, match pushOutcome w with
        | Some st => (map (scriptedPush st) reqs, None)
        | None => ([], Some pushFailed)
        end);
  db_Run := fun _ w => (w, if runFails w then Some runFailed else None);
  addWriteCmd := fun _ _ w => (w, if writeFails w then Some writeFailed else None);
  RunAsyncTask := fun w => (w, negb (draining w));
  TransactionKey := fun k id =>
    key "txn-" ++ k ++ match id with Some u => u | None => [] end
|}.

(** The replica of the scenarios covers [["a", "c")]. *)
Definition replicaAC : Replica := rangeReplica (key "a") (key "c").

Definition txnMeta (id anchor : string) (ts : Z) : TxnMeta :=
  {| TxnMeta_ID := Some (key id);
     TxnMeta_Key := key anchor;
     TxnMeta_Epoch := 0;
     TxnMeta_Timestamp := {| WallTime := ts; Logical := 0 |} |}.

Definition pointIntent (k : string) (txn : TxnMeta) (st : TransactionStatus) : Intent :=
  {| Intent_Span := {| Span_Key := key k; Span_EndKey := [] |};
     Intent_Txn := txn; Intent_Status := st |}.

Definition rangeIntent (k e : string) (txn : TxnMeta) (st : TransactionStatus) : Intent :=
  {| Intent_Span := {| Span_Key := key k; Span_EndKey := key e |};
     Intent_Txn := txn; Intent_Status := st |}.

Definition calm : Script :=
  {| wallClock := 100; pushOutcome := Some ABORTED;
     writeFails := false; runFails := false; draining := false |}.

(** The transactions, intents and callers of the scenarios. *)
Definition T2 : TxnMeta := txnMeta "T2" "a" 50.
Definition T4 : TxnMeta := txnMeta "T4" "b" 60.
Definition T6 : TxnMeta := txnMeta "T6" "c" 70.
Definition T7 : TxnMeta := txnMeta "T7" "a" 80.

Definition intentA : Intent := pointIntent "a" T2 COMMITTED.
Definition intentB : Intent := pointIntent "b" T4 PENDING.
Definition intentCD : Intent := rangeIntent "c" "d" T6 PENDING.

Definition pushee (meta : TxnMeta) (st : TransactionStatus) : Transaction :=
  {| Txn_Meta := meta; Txn_Priority := 0; Txn_Status := st |}.

Definition writer : Transaction :=
  {| Txn_Meta := txnMeta "T3" "w" 90; Txn_Priority := 5; Txn_Status := PENDING |}.

Definition writerHeader : Header :=
  {| Header_Timestamp := {| WallTime := 100; Logical := 0 |};
     Header_Txn := Some writer; Header_UserPriority := 0%Z |}.

Definition plainHeader : Header :=
  {| Header_Timestamp := {| WallTime := 100; Logical := 0 |};
     Header_Txn := None; Header_UserPriority := 0%Z |}.

Definition putArgs : Args := {| Args_Method := Put; IsReadOnly := false |}.
Definition getArgs : Args := {| Args_Method := Get; IsReadOnly := true |}.
Definition endTxnArgs : Args := {| Args_Method := EndTransaction; IsReadOnly := false |}.

(** An EndTransaction item that carries no intents. *)
Definition emptyEndTxn : intentsWithArg := {| args := endTxnArgs; intents := [] |}.

(** Clusters that misbehave in one way each. *)
Definition pushFails : Script :=
  {| wallClock := 100; pushOutcome := None;
     writeFails := false; runFails := false; draining := false |}.

Definition writesFail : Script :=
  {| wallClock := 100; pushOutcome := Some ABORTED;
     writeFails := true; runFails := false; draining := false |}.

Definition drainingWritesFail : Script :=
  {| wallClock := 100; pushOutcome := Some ABORTED;
     writeFails := true; runFails := false; draining := true |}.

Definition drainingRunsFail : Script :=
  {| wallClock := 100; pushOutcome := Some ABORTED;
     writeFails := false; runFails := true; draining := true |}.

Definition committing : Script :=
  {| wallClock := 100; pushOutcome := Some COMMITTED;
     writeFails := false; runFails := false; draining := false |}.

(** The scripted cluster with a stopper that declines every task. *)
Definition drained : Collaborators := {|
  World := Script;
  Clock_Now := @Clock_Now scripted;
  MakePriority := @MakePriority scripted;
  db_RunWithResponse := @db_RunWithResponse scripted;
  db_Run := @db_Run scripted;
  addWriteCmd := @addWriteCmd scripted;
  RunAsyncTask := fun w => (w, false);
  TransactionKey := @TransactionKey scripted
|}.

(** The scripted cluster with a cluster client that answers every push
    batch, without error, with the same fixed list of responses. *)
Definition answering (br : BatchResponse) : Collaborators := {|
  World := Script;
  Clock_Now := @Clock_Now scripted;
  MakePriority := @MakePriority scripted;
  db_RunWithResponse := fun _ w => (w, (br, None));
  db_Run := @db_Run scripted;
  addWriteCmd := @addWriteCmd scripted;
  RunAsyncTask := @RunAsyncTask scripted;
  TransactionKey := @TransactionKey scripted
|}.

(** C3 as the specification states it: called with [wait], the resolver
    dispatches both the local batch and the remote batch. *)
Definition dispatchesBothBatches `{C : Collaborators} (r : Replica)
    (intents : list Intent) (poison : bool) (w : World) : Prop :=
  let baLocal := fst (splitLocal r poison intents) in
  let reqsRemote := snd (splitLocal r poison intents) in
  let ev := snd (fst (resolveIntents r intents true poison w)) in
  (baLocal <> [] -> In (EvAddWriteCmd baLocal true) ev) /\
  (reqsRemote <> [] -> In (EvRun reqsRemote) ev).

(** C2 as the specification states it: what comes back from the Pusher
    still holds every input intent that was not PENDING. *)
Definition keepsFinalized (intents returned : list Intent) : Prop :=
  forall intent,
    In intent intents -> Intent_Status intent <> PENDING -> In intent returned.

(** ** Properties *)

Section Facts.
Context `{C : Collaborators}.

(** *** The three loops *)

Lemma splitPending_acc (intents : list Intent) :
  forall acc,
    fold_left
      (fun acc intent =>
         if negb (TransactionStatus_eqb (Intent_Status intent) PENDING)
         then (fst acc, snd acc ++ [intent])
         else (fst acc ++ [intent], snd acc))
      intents acc
    = (fst acc ++ filter isPending intents,
       snd acc ++ filter (fun i => negb (isPending i)) intents).
Proof.
  induction intents as [|intent rest IH]; intros [pushing resolving]; simpl.
  - now rewrite !app_nil_r.
  - rewrite IH. unfold isPending.
    destruct (TransactionStatus_eqb (Intent_Status intent) PENDING); simpl;
      now rewrite <- ?app_assoc.
Qed.

Lemma splitPending_filter (intents : list Intent) :
  splitPending intents
  = (filter isPending intents, filter (fun i => negb (isPending i)) intents).
Proof. unfold splitPending. now rewrite splitPending_acc. Qed.

Lemma isPending_true (intent : Intent) :
  isPending intent = true <-> Intent_Status intent = PENDING.
Proof.
  unfold isPending. destruct (Intent_Status intent); simpl; split; congruence.
Qed.

Lemma isPending_false (intent : Intent) :
  negb (isPending intent) = true <-> Intent_Status intent <> PENDING.
Proof.
  unfold isPending. destruct (Intent_Status intent); simpl; split; congruence.
Qed.

(** Splitting a list by a test loses and repeats nothing. *)
Lemma filter_split_Permutation {A} (f : A -> bool) (l : list A) :
  Permutation l (filter f l ++ filter (fun x => negb (f x)) l).
Proof.
  induction l as [|x l IH]; simpl; [constructor|].
  destruct (f x); simpl.
  - now constructor.
  - now apply Permutation_cons_app.
Qed.

Lemma mergeResponses_answered (pushIntents : list Intent) :
  forall pushees front back acc,
    List.length pushees = List.length pushIntents ->
    mergeResponses (front ++ map RespPushTxn pushees ++ back)
                   (List.length front) pushIntents acc
    = Ret (acc ++ zipPushees pushIntents pushees).
Proof.
  induction pushIntents as [|intent rest IH]; intros pushees front back acc Hlen.
  - simpl. unfold zipPushees. simpl. now rewrite app_nil_r.
  - destruct pushees as [|pushee others]; [discriminate|].
    simpl in Hlen. injection Hlen as Hlen.
    cbn [mergeResponses map app].
    rewrite nth_error_app2 by lia. rewrite Nat.sub_diag. cbn [nth_error].
    replace (front ++ RespPushTxn pushee :: map RespPushTxn others ++ back)
      with ((front ++ [RespPushTxn pushee]) ++ map RespPushTxn others ++ back)
      by now rewrite <- app_assoc.
    replace (S (List.length front)) with (List.length (front ++ [RespPushTxn pushee]))
      by (rewrite length_app; simpl; lia).
    rewrite IH by assumption.
    unfold zipPushees. simpl. now rewrite <- app_assoc.
Qed.

Lemma splitLocal_acc (r : Replica) (poison : bool) (intents : list Intent) :
  forall acc,
    fold_left
      (fun acc intent =>
         if snd (resolveArgs r poison intent)
         then (fst acc ++ [fst (resolveArgs r poison intent)], snd acc)
         else (fst acc, snd acc ++ [fst (resolveArgs r poison intent)]))
      intents acc
    = (fst acc ++ map (fun i => fst (resolveArgs r poison i))
                      (filter (fun i => snd (resolveArgs r poison i)) intents),
       snd acc ++ map (fun i => fst (resolveArgs r poison i))
                      (filter (fun i => negb (snd (resolveArgs r poison i))) intents)).
Proof.
  induction intents as [|intent rest IH]; intros [loc rem]; simpl.
  - now rewrite !app_nil_r.
  - rewrite IH.
    destruct (snd (resolveArgs r poison intent)); simpl; now rewrite <- ?app_assoc.
Qed.

Lemma splitLocal_filter (r : Replica) (poison : bool) (intents : list Intent) :
  splitLocal r poison intents
  = (map (fun i => fst (resolveArgs r poison i))
         (filter (fun i => snd (resolveArgs r poison i)) intents),
     map (fun i => fst (resolveArgs r poison i))
         (filter (fun i => negb (snd (resolveArgs r poison i))) intents)).
Proof. unfold splitLocal. now rewrite splitLocal_acc. Qed.

Lemma resolveArgs_poison (r : Replica) (poison : bool) (intent : Intent) :
  poisonOf (fst (resolveArgs r poison intent)) = Some poison.
Proof.
  unfold resolveArgs.
  destruct (Nat.eqb (List.length (Span_EndKey (Intent_Span intent))) 0); reflexivity.
Qed.

Lemma splitLocal_poison (r : Replica) (poison : bool) (intents : list Intent) :
  forall req,
    In req (fst (splitLocal r poison intents) ++ snd (splitLocal r poison intents)) ->
    poisonOf req = Some poison.
Proof.
  intros req. rewrite splitLocal_filter. cbn [fst snd].
  rewrite in_app_iff, !in_map_iff.
  intros [[i [<- _]]|[i [<- _]]]; apply resolveArgs_poison.
Qed.

(** *** Running the monad *)

Ltac oracle :=
  match goal with
  | |- context [RunAsyncTask ?w] =>
      let E := fresh "Hpool" in destruct (RunAsyncTask w) as [? []] eqn:E
  | |- context [addWriteCmd ?ba ?wg ?w] =>
      let E := fresh "Hwrite" in destruct (addWriteCmd ba wg w) as [? [?|]] eqn:E
  | |- context [db_Run ?reqs ?w] =>
      let E := fresh "Hrun" in destruct (db_Run reqs w) as [? [?|]] eqn:E
  end; cbn.

Ltac settle :=
  repeat match goal with
    | |- _ /\ _ => split
    | |- _ <-> _ => split
    | |- _ -> _ => intro
    | |- forall _, _ => intro
    | |- exists _, _ => first [ congruence | eexists ]
    | H : _ \/ _ |- _ => destruct H
    | H : _ /\ _ |- _ => destruct H
    end;
  try congruence; auto.

Ltac unfold_resolve :=
  unfold resolveIntents, resolveLocal, resolveRemote, syncOrAsync,
    replicaAddWriteCmd, run, runAsyncTask, call, emit, bind, ret.

(** *** resolveIntents *)

(** [resolveIntents] never panics. *)
Lemma resolveIntents_returns r intents wait poison w :
  exists res, snd (resolveIntents r intents wait poison w) = Ret res.
Proof.
  unfold_resolve.
  destruct (Nat.ltb 0 (List.length (fst (splitLocal r poison intents))));
    destruct (Nat.ltb 0 (List.length (snd (splitLocal r poison intents))));
    destruct wait; cbn; repeat oracle; eauto.
Qed.

(** Every event of [resolveIntents] concerns its one local batch or its
    one list of remote requests. *)
Lemma resolveIntents_events r intents wait poison w :
  Forall (resolveEvent (fst (splitLocal r poison intents))
                       (snd (splitLocal r poison intents)))
         (snd (fst (resolveIntents r intents wait poison w))).
Proof.
  unfold_resolve.
  destruct (Nat.ltb 0 (List.length (fst (splitLocal r poison intents))));
    destruct (Nat.ltb 0 (List.length (snd (splitLocal r poison intents))));
    destruct wait; cbn; repeat oracle;
    repeat constructor.
Qed.

(** Each batch is handed out at most once, to the collaborator that runs
    it or to the pool. *)
Lemma resolveIntents_once r intents wait poison w :
  let ev := snd (fst (resolveIntents r intents wait poison w)) in
  (List.length (filter isWrite ev) <= 1)%nat /\
  (List.length (filter isRun ev) <= 1)%nat /\
  (List.length (filter isAsync ev) <= 2)%nat.
Proof.
  unfold_resolve.
  destruct (Nat.ltb 0 (List.length (fst (splitLocal r poison intents))));
    destruct (Nat.ltb 0 (List.length (snd (splitLocal r poison intents))));
    destruct wait; cbn; repeat oracle; repeat split; lia.
Qed.

(** C10: with an empty intent list [resolveIntents] hands out no local and
    no remote batch, leaves the world as it is and returns nil, whatever
    [wait] and [poison] are; all it does is wait on its (empty) wait
    group. *)
Theorem resolveIntents_nil r wait poison w :
  resolveIntents r [] wait poison w = (w, [EvWgWait], Ret None).
Proof. destruct wait; reflexivity. Qed.

(** C4: a single-key intent (empty EndKey) yields a point resolve request
    and is local iff the replica contains its key; a ranged intent yields a
    range resolve request and is local iff the replica contains the whole
    range; the local batch holds exactly the requests of the local intents
    and the remote list exactly those of the others, so the two together
    are a rearrangement of the requests of all intents; every event of the
    call concerns that one local batch or that one remote list, and each
    reaches its collaborator at most once. *)
Theorem resolveIntents_local_remote_split r intents wait poison w :
  let request := fun i => fst (resolveArgs r poison i) in
  let local := fun i => snd (resolveArgs r poison i) in
  let baLocal := fst (splitLocal r poison intents) in
  let reqsRemote := snd (splitLocal r poison intents) in
  let ev := snd (fst (resolveIntents r intents wait poison w)) in
  (forall intent,
      (Span_EndKey (Intent_Span intent) = [] ->
       request intent =
         ReqResolveIntent {| RI_Span := Intent_Span intent;
                             RI_IntentTxn := Intent_Txn intent;
                             RI_Status := Intent_Status intent;
                             RI_Poison := poison |} /\
       local intent = ContainsKey r (Span_Key (Intent_Span intent))) /\
      (Span_EndKey (Intent_Span intent) <> [] ->
       request intent =
         ReqResolveIntentRange {| RIR_Span := Intent_Span intent;
                                  RIR_IntentTxn := Intent_Txn intent;
                                  RIR_Status := Intent_Status intent;
                                  RIR_Poison := poison |} /\
       local intent = ContainsKeyRange r (Span_Key (Intent_Span intent))
                                         (Span_EndKey (Intent_Span intent)))) /\
  baLocal = map request (filter local intents) /\
  reqsRemote = map request (filter (fun i => negb (local i)) intents) /\
  Permutation (map request intents) (baLocal ++ reqsRemote) /\
  Forall (resolveEvent baLocal reqsRemote) ev /\
  (List.length (filter isWrite ev) <= 1)%nat /\
  (List.length (filter isRun ev) <= 1)%nat.
Proof.
  intros request local baLocal reqsRemote ev.
  split; [|split; [|split; [|split; [|split]]]].
  - intros intent. subst request local. unfold resolveArgs.
    destruct (Span_EndKey (Intent_Span intent)) as [|b bs]; cbn; split;
      intros H; try congruence; now split.
  - subst baLocal. now rewrite splitLocal_filter.
  - subst reqsRemote. now rewrite splitLocal_filter.
  - subst baLocal reqsRemote. rewrite splitLocal_filter. cbn [fst snd].
    rewrite <- map_app. apply Permutation_map, filter_split_Permutation.
  - apply resolveIntents_events.
  - pose proof (resolveIntents_once r intents wait poison w) as H.
    cbn zeta in H. tauto.
Qed.

(** C3, as the code has it: with [wait] set nothing goes through the task
    pool.  The local batch, when there is one, is handed to the replica's
    write path first, on the caller's task; if that fails, its error is
    returned and the remote batch is not dispatched.  Otherwise the remote
    batch, when there is one, is run through the cluster client on the
    caller's task and its outcome is returned.  Nil comes back exactly when
    every non-empty batch ran without error. *)
Theorem resolveIntents_wait_sequential r intents poison w w1 localErr w2 remoteErr :
  let baLocal := fst (splitLocal r poison intents) in
  let reqsRemote := snd (splitLocal r poison intents) in
  addWriteCmd baLocal true w = (w1, localErr) ->
  db_Run reqsRemote (match baLocal with [] => w | _ => w1 end) = (w2, remoteErr) ->
  exists w' ev out,
    resolveIntents r intents true poison w = (w', ev, out) /\
    filter isAsync ev = [] /\
    (baLocal <> [] ->
     exists ev', ev = EvWgAdd :: EvAddWriteCmd baLocal true :: ev' /\
                 filter isWrite ev' = []) /\
    (baLocal = [] -> filter isWrite ev = []) /\
    (baLocal <> [] -> forall e, localErr = Some e ->
       out = Ret (Some e) /\ filter isRun ev = [] /\ w' = w1) /\
    ((baLocal = [] \/ localErr = None) -> reqsRemote <> [] ->
       filter isRun ev = [EvRun reqsRemote] /\ out = Ret remoteErr /\ w' = w2) /\
    (reqsRemote = [] -> filter isRun ev = []) /\
    (out = Ret None <->
       (baLocal = [] \/ localErr = None) /\ (reqsRemote = [] \/ remoteErr = None)).
Proof.
  intros baLocal reqsRemote Hlocal Hremote.
  unfold_resolve. fold baLocal reqsRemote.
  clearbody baLocal reqsRemote.
  destruct baLocal as [|b bl]; destruct reqsRemote as [|q ql]; cbn;
    rewrite ?Hlocal; destruct localErr as [e|]; cbn;
    rewrite ?Hremote; destruct remoteErr as [e'|]; cbn;
    do 3 eexists; (split; [reflexivity|]); cbn; settle.
Qed.

(** C7: without [wait], a batch that the draining task pool declines is run
    on the caller's task right away, and its error is what the call
    returns.  This holds for the local batch (handed to the write path) and
    for the remote batch (run through the cluster client) alike. *)
Theorem resolveIntents_draining_runs_inline r intents poison w :
  let baLocal := fst (splitLocal r poison intents) in
  let reqsRemote := snd (splitLocal r poison intents) in
  (forall w0 w1 localErr,
      baLocal <> [] ->
      RunAsyncTask w = (w0, false) ->
      addWriteCmd baLocal true w0 = (w1, localErr) ->
      exists w' ev' out,
        resolveIntents r intents false poison w
        = (w', EvWgAdd :: EvRunAsyncTask (TaskResolveLocal baLocal) false
                 :: EvAddWriteCmd baLocal true :: ev', out) /\
        (forall e, localErr = Some e ->
                   out = Ret (Some e) /\ w' = w1 /\ ev' = [])) /\
  (forall wl evl w0 w2 remoteErr,
      reqsRemote <> [] ->
      resolveLocal false baLocal w = (wl, evl, Ret None) ->
      RunAsyncTask wl = (w0, false) ->
      db_Run reqsRemote w0 = (w2, remoteErr) ->
      exists ev',
        resolveIntents r intents false poison w
        = (w2, evl ++ EvRunAsyncTask (TaskResolveRemote reqsRemote) false
                 :: EvRun reqsRemote :: ev', Ret remoteErr) /\
        (forall e, remoteErr = Some e -> ev' = [])).
Proof.
  intros baLocal reqsRemote. split.
  - intros w0 w1 localErr Hne Hpool Hwrite.
    unfold_resolve. fold baLocal reqsRemote. clearbody baLocal reqsRemote.
    destruct baLocal as [|b bl]; [congruence|]. cbn.
    rewrite Hpool. cbn. rewrite Hwrite.
    destruct localErr as [e|]; cbn.
    + do 3 eexists. split; [reflexivity|]. intros e' [= <-]. auto.
    + destruct reqsRemote as [|q ql]; cbn; repeat oracle;
        do 3 eexists; (split; [reflexivity|]); congruence.
  - intros wl evl w0 w2 remoteErr Hne Hstage Hpool Hrun.
    unfold resolveIntents. cbn zeta. fold baLocal reqsRemote.
    clearbody baLocal reqsRemote.
    unfold bind at 1. rewrite Hstage.
    unfold resolveRemote, syncOrAsync, run, runAsyncTask, call, emit, bind, ret.
    destruct reqsRemote as [|q ql]; [congruence|]. cbn.
    rewrite Hpool. cbn. rewrite Hrun.
    destruct remoteErr as [e|]; cbn; eexists; (split; [reflexivity|]); congruence.
Qed.

(** *** Poison *)

(** Every request that [resolveIntents] hands out is a resolve request
    carrying the caller's poison flag. *)
Lemma resolveIntents_poison r intents wait poison w :
  forall e req,
    In e (snd (fst (resolveIntents r intents wait poison w))) ->
    In req (requestsOf e) ->
    poisonOf req = Some poison.
Proof.
  intros e req He Hreq.
  pose proof (resolveIntents_events r intents wait poison w) as Hev.
  rewrite Forall_forall in Hev. specialize (Hev e He).
  apply (splitLocal_poison r poison intents). rewrite in_app_iff.
  destruct e as [| | | reqs | ba wg | [ba|reqs|now item] acc | | |];
    cbn in Hev, Hreq; try contradiction.
  - subst reqs. now right.
  - destruct Hev as [-> _]. now left.
  - subst ba. now left.
  - subst reqs. now right.
Qed.

(** *** maybePushTransactions *)

Lemma pusherOf_returns (h : Header) w :
  exists w1 evp pusher,
    pusherOf (Header_Txn h) h w = (w1, evp, Ret pusher) /\
    Forall (fun e => requestsOf e = [] /\ isPushBatch e = false) evp.
Proof.
  unfold pusherOf, makePriority, call, bind, ret.
  destruct (Header_Txn h) as [txn|]; [eauto 6|].
  destruct (MakePriority (Header_UserPriority h) w) as [w1 p]. cbn.
  do 3 eexists. split; [reflexivity|]. repeat constructor.
Qed.

(** One run of [maybePushTransactions], given what the clock, the pusher
    block and the cluster client answered. *)
Lemma maybePushTransactions_exec intents h pushType w w0 now w1 evp pusher w2 br err :
  Clock_Now w = (w0, now) ->
  pusherOf (Header_Txn h) h w0 = (w1, evp, Ret pusher) ->
  db_RunWithResponse
    (map (pushRequest pusher h now pushType) (filter isPending intents)) w1
  = (w2, (br, err)) ->
  maybePushTransactions intents h pushType w
  = (w2,
     EvClockNow :: evp ++
       [EvRunWithResponse
          (map (pushRequest pusher h now pushType) (filter isPending intents))],
     match err with
     | Some e => Ret ([], Some e)
     | None =>
         match mergeResponses br 0 (filter isPending intents)
                 (filter (fun i => negb (isPending i)) intents) with
         | Ret ris => Ret (ris, None)
         | Panic msg => Panic msg
         end
     end).
Proof.
  intros Hclock Hpusher Hdb.
  unfold maybePushTransactions. rewrite splitPending_filter. cbn [fst snd].
  unfold clockNow, runWithResponse, call, lift, bind, ret.
  rewrite Hclock, Hpusher, Hdb. cbn [fst snd].
  destruct err as [e|]; cbn; [reflexivity|].
  destruct (mergeResponses br 0 (filter isPending intents)
              (filter (fun i => negb (isPending i)) intents));
    reflexivity.
Qed.

(** Putting the finalized intents first and the pushed ones after them
    rearranges the in-place rewriting of the input. *)
Lemma zipPushees_pushedInPlace (intents : list Intent) :
  forall pushees,
    List.length pushees = List.length (filter isPending intents) ->
    Permutation
      (filter (fun i => negb (isPending i)) intents
         ++ zipPushees (filter isPending intents) pushees)
      (pushedInPlace intents pushees).
Proof.
  induction intents as [|intent rest IH]; intros pushees Hlen.
  - destruct pushees; [constructor|discriminate].
  - cbn [filter pushedInPlace] in *.
    destruct (isPending intent); cbn [negb] in *.
    + destruct pushees as [|pushee others]; [discriminate|].
      cbn in Hlen. injection Hlen as Hlen.
      unfold zipPushees. cbn [combine map fst snd].
      apply Permutation_sym, Permutation_cons_app, Permutation_sym.
      apply IH, Hlen.
    + cbn. constructor. apply IH, Hlen.
Qed.

Lemma zipPushees_nth (pushIntents : list Intent) :
  forall pushees k intent pushee,
    nth_error pushIntents k = Some intent ->
    nth_error pushees k = Some pushee ->
    nth_error (zipPushees pushIntents pushees) k
    = Some {| Intent_Span := Intent_Span intent;
              Intent_Txn := Txn_Meta pushee;
              Intent_Status := Txn_Status pushee |}.
Proof.
  induction pushIntents as [|first rest IH]; intros pushees k intent pushee Hi Hp.
  - destruct k; discriminate Hi.
  - destruct pushees as [|p ps]; [destruct k; discriminate Hp|].
    destruct k as [|k]; cbn in Hi, Hp.
    + injection Hi as <-. injection Hp as <-. reflexivity.
    + exact (IH ps k intent pushee Hi Hp).
Qed.

Lemma zipPushees_length pushIntents pushees :
  List.length pushees = List.length pushIntents ->
  List.length (zipPushees pushIntents pushees) = List.length pushIntents.
Proof.
  intros H. unfold zipPushees. rewrite length_map, length_combine. lia.
Qed.

(** C6: the partition step puts an intent among those to push iff it is
    PENDING and among the immediately resolvable ones otherwise, losing and
    repeating nothing; and when the push batch comes back without error,
    with one push response per pending intent, the returned set is the
    finalized intents unchanged followed by the pushed ones, the k-th of
    which keeps the span of the k-th pending intent and takes its
    transaction meta and its status from the k-th push response: a
    rearrangement of the input rewritten in place, of the input's length. *)
Theorem maybePushTransactions_classification
    intents h pushType w w0 now w1 evp pusher w2 pushees :
  let pushIntents := fst (splitPending intents) in
  let resolveIntents := snd (splitPending intents) in
  Clock_Now w = (w0, now) ->
  pusherOf (Header_Txn h) h w0 = (w1, evp, Ret pusher) ->
  db_RunWithResponse (map (pushRequest pusher h now pushType) pushIntents) w1
  = (w2, (map RespPushTxn pushees, None)) ->
  List.length pushees = List.length pushIntents ->
  (forall intent,
      In intent pushIntents <-> In intent intents /\ Intent_Status intent = PENDING) /\
  (forall intent,
      In intent resolveIntents <-> In intent intents /\ Intent_Status intent <> PENDING) /\
  Permutation intents (pushIntents ++ resolveIntents) /\
  exists ev returned,
    maybePushTransactions intents h pushType w = (w2, ev, Ret (returned, None)) /\
    returned = resolveIntents ++ zipPushees pushIntents pushees /\
    (forall k intent,
        nth_error resolveIntents k = Some intent ->
        nth_error returned k = Some intent) /\
    (forall k intent pushee,
        nth_error pushIntents k = Some intent ->
        nth_error pushees k = Some pushee ->
        nth_error returned (List.length resolveIntents + k)
        = Some {| Intent_Span := Intent_Span intent;
                  Intent_Txn := Txn_Meta pushee;
                  Intent_Status := Txn_Status pushee |}) /\
    Permutation returned (pushedInPlace intents pushees) /\
    List.length returned = List.length intents.
Proof.
  intros pushIntents resolveIntents Hclock Hpusher Hdb Hlen.
  subst pushIntents resolveIntents.
  rewrite splitPending_filter in *. cbn [fst snd] in *.
  split; [|split; [|split]].
  - intros intent. rewrite filter_In, isPending_true. tauto.
  - intros intent. rewrite filter_In, isPending_false. tauto.
  - apply filter_split_Permutation.
  - exists (EvClockNow :: evp ++
              [EvRunWithResponse
                 (map (pushRequest pusher h now pushType) (filter isPending intents))]).
    eexists. split; [|split; [reflexivity|split; [|split; [|split]]]].
    + rewrite (maybePushTransactions_exec _ _ _ _ _ _ _ _ _ _ _ _ Hclock Hpusher Hdb).
      pose proof (mergeResponses_answered (filter isPending intents) pushees [] []
                    (filter (fun i => negb (isPending i)) intents) Hlen) as Hmerge.
      cbn [app List.length] in Hmerge. rewrite app_nil_r in Hmerge.
      now rewrite Hmerge.
    + intros k intent Hk. rewrite nth_error_app1; [exact Hk|].
      apply nth_error_Some. congruence.
    + intros k intent pushee Hi Hp.
      rewrite nth_error_app2 by lia.
      replace (List.length (filter (fun i => negb (isPending i)) intents) + k
               - List.length (filter (fun i => negb (isPending i)) intents))%nat
        with k by lia.
      now apply zipPushees_nth.
    + now apply zipPushees_pushedInPlace.
    + rewrite length_app, zipPushees_length by assumption.
      rewrite (Permutation_length (filter_split_Permutation isPending intents)).
      rewrite length_app. lia.
Qed.

(** When the push batch fails, [maybePushTransactions] returns the error
    with a nil slice: the intents that needed no push are not handed
    back. *)
Lemma maybePushTransactions_push_error
    intents h pushType w w0 now w1 evp pusher w2 br err :
  Clock_Now w = (w0, now) ->
  pusherOf (Header_Txn h) h w0 = (w1, evp, Ret pusher) ->
  db_RunWithResponse
    (map (pushRequest pusher h now pushType) (filter isPending intents)) w1
  = (w2, (br, Some err)) ->
  snd (maybePushTransactions intents h pushType w) = Ret ([], Some err).
Proof.
  intros Hclock Hpusher Hdb.
  now rewrite (maybePushTransactions_exec _ _ _ _ _ _ _ _ _ _ _ _ Hclock Hpusher Hdb).
Qed.

Lemma bind_events {A B} (m : M A) (f : A -> M B) w e :
  In e (snd (fst (bind m f w))) ->
  In e (snd (fst (m w))) \/
  exists a, snd (m w) = Ret a /\ In e (snd (fst (f a (fst (fst (m w)))))).
Proof.
  unfold bind. destruct (m w) as [[w1 ev1] [a|msg]]; cbn; [|tauto].
  destruct (f a w1) as [[w2 ev2] o] eqn:Hf; cbn. rewrite in_app_iff.
  intros [H|H]; [now left|right]. exists a. rewrite Hf. now split.
Qed.

(** Everything [maybePushTransactions] sends is one batch of push requests
    of the given push type, pushing to the header's timestamp. *)
Lemma maybePushTransactions_requests intents h pushType w :
  let ev := snd (fst (maybePushTransactions intents h pushType w)) in
  (forall e req, In e ev -> In req (requestsOf e) ->
     exists p, req = ReqPushTxn p /\ PushType p = pushType /\
               PushTo p = Header_Timestamp h) /\
  List.length (filter isPushBatch ev) = 1%nat.
Proof.
  destruct (Clock_Now w) as [w0 now] eqn:Hclock.
  destruct (pusherOf_returns h w0) as [w1 [evp [pusher [Hpusher Hevp]]]].
  destruct (db_RunWithResponse
              (map (pushRequest pusher h now pushType) (filter isPending intents)) w1)
    as [w2 [br err]] eqn:Hdb.
  rewrite (maybePushTransactions_exec _ _ _ _ _ _ _ _ _ _ _ _ Hclock Hpusher Hdb).
  cbn [fst snd]. rewrite Forall_forall in Hevp. split.
  - intros e req He Hreq.
    destruct He as [<-|He]; [destruct Hreq|].
    apply in_app_iff in He as [He|[<-|[]]].
    + destruct (Hevp e He) as [Hnil _]. rewrite Hnil in Hreq. destruct Hreq.
    + cbn in Hreq. apply in_map_iff in Hreq as [intent [<- _]].
      eexists. split; [reflexivity|]. now split.
  - cbn [filter isPushBatch]. rewrite filter_app. cbn.
    replace (filter isPushBatch evp) with (@nil Event); [reflexivity|].
    symmetry. clear Hpusher.
    induction evp as [|e evp IH]; [reflexivity|]. cbn.
    destruct (Hevp e (or_introl eq_refl)) as [_ ->].
    apply IH. intros x Hx. apply Hevp. now right.
Qed.

(** *** processWriteIntentError *)

(** C1: whatever the conflict report and the push type, the call returns
    one of three errors, decided by the push result and the caller.  If the
    push came back without error, it returns the conflict error with
    Resolved set.  If the push failed and the header carries a transaction
    with a non-nil ID and the request is not read-only, it returns the push
    error itself.  If the push failed and the request is read-only or there
    is no such transaction, it returns the conflict error as it came in,
    Resolved not set by the call.  An error of the asynchronous resolve
    kick-off only adds a warning to the log: the returned value is the same
    whether or not the kick-off failed. *)
Theorem processWriteIntentError_outcome
    wiErr r args h pushType w w1 ev1 ris pushErr w2 ev2 resErr :
  maybePushTransactions (Intents wiErr) h pushType w = (w1, ev1, Ret (ris, pushErr)) ->
  resolveIntents r ris false true w1 = (w2, ev2, Ret resErr) ->
  exists result,
    processWriteIntentError wiErr r args h pushType w
    = (w2, ev1 ++ ev2 ++ kickOffWarning resErr, Ret (Some result)) /\
    (pushErr = None ->
     result = NewError (DetailWriteIntent
                          {| Intents := Intents wiErr; Resolved := true |})) /\
    (forall e txn id,
        pushErr = Some e ->
        Header_Txn h = Some txn -> TxnMeta_ID (Txn_Meta txn) = Some id ->
        IsReadOnly args = false ->
        result = e) /\
    (forall e,
        pushErr = Some e ->
        (IsReadOnly args = true \/ Header_Txn h = None \/
         exists txn, Header_Txn h = Some txn /\ TxnMeta_ID (Txn_Meta txn) = None) ->
        result = NewError (DetailWriteIntent wiErr) /\
        (Resolved wiErr = false ->
         exists wi, GetDetail result = DetailWriteIntent wi /\ Resolved wi = false)).
Proof.
  intros Hpush Hres.
  unfold processWriteIntentError, bind. rewrite Hpush. cbn [fst snd].
  rewrite Hres. unfold hasTxnID, warning, emit, ret, setResolved.
  destruct pushErr as [pushErr|].
  - destruct (Header_Txn h) as [txn|] eqn:Htxn;
      [destruct (TxnMeta_ID (Txn_Meta txn)) as [id|] eqn:Hid|];
      destruct (IsReadOnly args) eqn:Hro;
      destruct resErr as [resErr|]; cbn;
      eexists; (split; [rewrite ?app_nil_r; reflexivity|]);
      (split; [congruence|]);
      (split; [intros e txn' id' [= <-] [= <-] Hid' Hro'; congruence|]);
      (intros e [= <-] [Habs|[Habs|[txn' [[= <-] Habs]]]];
       try congruence;
       (split; [reflexivity|intros Hunset; exists wiErr; now split])).
  - destruct resErr as [resErr|]; cbn;
      eexists; (split; [rewrite ?app_nil_r; reflexivity|]);
      (split; [reflexivity|]); split; congruence.
Qed.

(** *** processIntentsAsync *)

Lemma Method_eqb_eq (a b : Method) : Method_eqb a b = true <-> a = b.
Proof. destruct a, b; cbn; split; congruence. Qed.

Lemma resolveIntents_wait_no_pool r intents poison w :
  filter isAsync (snd (fst (resolveIntents r intents true poison w))) = [].
Proof.
  unfold_resolve.
  destruct (Nat.ltb 0 (List.length (fst (splitLocal r poison intents))));
    destruct (Nat.ltb 0 (List.length (snd (splitLocal r poison intents))));
    cbn; repeat oracle; reflexivity.
Qed.

(** The loop of [processIntentsAsync] hands one task per item to the pool,
    in order, each with the same clock reading. *)
Lemma scheduleAll_scheduled now items :
  forall w,
    scheduled (snd (fst (scheduleAll now items w)))
    = map (fun item => TaskProcessIntents now (args item)) items.
Proof.
  induction items as [|item rest IH]; intros w; [reflexivity|].
  cbn [scheduleAll map]. unfold bind, runAsyncTask.
  destruct (RunAsyncTask w) as [w1 accepted].
  specialize (IH w1).
  destruct (scheduleAll now rest w1) as [[w2 ev2] o]. cbn in *.
  now rewrite IH.
Qed.

Lemma processIntentsAsync_scheduled r items w :
  scheduled (snd (fst (processIntentsAsync r items w)))
  = map (fun item => TaskProcessIntents (snd (Clock_Now w)) (args item)) items.
Proof.
  unfold processIntentsAsync.
  destruct items as [|item rest]; [reflexivity|].
  cbn [List.length Nat.eqb]. unfold bind, clockNow, call.
  destruct (Clock_Now w) as [w0 now]. cbn [snd].
  pose proof (scheduleAll_scheduled now (item :: rest) w0) as H.
  destruct (scheduleAll now (item :: rest) w0) as [[w2 ev2] o]. cbn in *.
  exact H.
Qed.

(** C8: the task of an item first runs the Pusher on the item's intents
    with PUSH_TOUCH and a header whose timestamp is the clock reading
    [processIntentsAsync] took, then the Resolver on what came back with
    [wait] set and without poison.  When both succeeded and the item's
    request is an EndTransaction, it hands exactly one GC request to the
    replica, spanning the replica's start and end keys and listing exactly
    the transaction key of the first intent's transaction; a failure of
    that request is logged and the task still returns.  In every other
    case no GC request is issued.  [processIntentsAsync] schedules one such
    task per item, all with the one clock reading it took. *)
Theorem processIntentsTask_steps
    r now reqArgs atPush atGC w w1 ev1 ris pushErr w2 ev2 pErr :
  maybePushTransactions (intents atPush)
    {| Header_Timestamp := now; Header_Txn := None; Header_UserPriority := 0%Z |}
    PUSH_TOUCH w = (w1, ev1, Ret (ris, pushErr)) ->
  resolveIntents r ris true false w1 = (w2, ev2, Ret pErr) ->
  exists w3 ev3 out,
    processIntentsTask r now reqArgs atPush atGC w = (w3, ev1 ++ ev2 ++ ev3, out) /\
    (List.length (filter isPushBatch ev1) = 1%nat /\
     forall e req, In e ev1 -> In req (requestsOf e) ->
       exists p, req = ReqPushTxn p /\ PushType p = PUSH_TOUCH /\ PushTo p = now) /\
    (filter isAsync ev2 = [] /\
     forall e req, In e ev2 -> In req (requestsOf e) -> poisonOf req = Some false) /\
    (forall intent rest,
        pushErr = None -> pErr = None ->
        Args_Method reqArgs = EndTransaction ->
        intents atGC = intent :: rest ->
        ev3 = EvAddWriteCmd [gcRequest r (Intent_Txn intent)] false
                :: gcWarning (snd (addWriteCmd [gcRequest r (Intent_Txn intent)] false w2)) /\
        w3 = fst (addWriteCmd [gcRequest r (Intent_Txn intent)] false w2) /\
        out = Ret tt) /\
    ((pushErr <> None \/ pErr <> None \/ Args_Method reqArgs <> EndTransaction) ->
     filter isWrite ev3 = [] /\ out = Ret tt) /\
    (forall items w',
        scheduled (snd (fst (processIntentsAsync r items w')))
        = map (fun item => TaskProcessIntents (snd (Clock_Now w')) (args item)) items).
Proof.
  intros Hpush Hres.
  pose proof (maybePushTransactions_requests (intents atPush)
                {| Header_Timestamp := now; Header_Txn := None;
                   Header_UserPriority := 0%Z |} PUSH_TOUCH w) as Hreqs.
  rewrite Hpush in Hreqs. cbn [fst snd] in Hreqs. destruct Hreqs as [Hreqs Hone].
  pose proof (resolveIntents_wait_no_pool r ris false w1) as Hsync.
  pose proof (resolveIntents_poison r ris true false w1) as Hpoison.
  rewrite Hres in Hsync, Hpoison. cbn [fst snd] in Hsync, Hpoison.
  pose proof (processIntentsAsync_scheduled r) as Hsched.
  unfold processIntentsTask, bind. rewrite Hpush. cbn [fst snd]. rewrite Hres.
  unfold warning, emit, ret, panic, replicaAddWriteCmd, call.
  cbn [Header_Timestamp] in Hreqs.
  assert (Hframe : forall (P Q : Prop), P -> Q ->
            (List.length (filter isPushBatch ev1) = 1%nat /\
             forall e req, In e ev1 -> In req (requestsOf e) ->
               exists p, req = ReqPushTxn p /\ PushType p = PUSH_TOUCH /\ PushTo p = now) /\
            (filter isAsync ev2 = [] /\
             forall e req, In e ev2 -> In req (requestsOf e) -> poisonOf req = Some false) /\
            P /\ Q /\
            (forall items w',
                scheduled (snd (fst (processIntentsAsync r items w')))
                = map (fun item => TaskProcessIntents (snd (Clock_Now w')) (args item))
                      items))
    by (intros P Q HP HQ; repeat split; auto).
  destruct pErr as [pErr|]; [|destruct pushErr as [pushErr|]].
  - do 3 eexists. split; [reflexivity|]. apply Hframe.
    + intros; congruence.
    + intros _. now split.
  - do 3 eexists. split; [reflexivity|]. apply Hframe.
    + intros; congruence.
    + intros _. now split.
  - destruct (Method_eqb (Args_Method reqArgs) EndTransaction) eqn:Hm.
    + apply Method_eqb_eq in Hm.
      destruct (intents atGC) as [|intent rest] eqn:Hitems.
      * do 3 eexists. split; [reflexivity|]. apply Hframe.
        -- intros; congruence.
        -- intros [H|[H|H]]; congruence.
      * change ([] ++ [ {| GCKey_Key := TransactionKey (TxnMeta_Key (Intent_Txn intent))
                                        (TxnMeta_ID (Intent_Txn intent));
                          GCKey_Timestamp := ZeroTimestamp |} ])
          with [ {| GCKey_Key := TransactionKey (TxnMeta_Key (Intent_Txn intent))
                                   (TxnMeta_ID (Intent_Txn intent));
                    GCKey_Timestamp := ZeroTimestamp |} ].
        fold (gcRequest r (Intent_Txn intent)).
        destruct (addWriteCmd [gcRequest r (Intent_Txn intent)] false w2)
          as [w3 [gcErr|]] eqn:Hgc; cbn;
          do 3 eexists; (split; [reflexivity|]); apply Hframe;
          try (intros [H|[H|H]]; congruence);
          intros i rst _ _ _ [= <- <-]; rewrite Hgc; cbn; auto.
    + assert (Hne : Args_Method reqArgs <> EndTransaction)
        by (intros H; apply Method_eqb_eq in H; congruence).
      do 3 eexists. split; [reflexivity|]. apply Hframe.
      * intros; congruence.
      * intros _. now split.
Qed.

(** C9: the GC step of the post-commit task reads the first intent of the
    item without a check.  For an EndTransaction item with no intents the
    step is reached as soon as the (empty) push batch comes back without
    error, and the task then panics with an index out of range; for an
    EndTransaction item that has an intent the task gets through the step
    and returns. *)
Theorem processIntentsTask_EndTransaction_needs_intent
    r now item w w0 t0 w1 p w2 br :
  Args_Method (args item) = EndTransaction ->
  (intents item = [] ->
   Clock_Now w = (w0, t0) ->
   MakePriority 0%Z w0 = (w1, p) ->
   db_RunWithResponse [] w1 = (w2, (br, None)) ->
   processIntentsTask r now (args item) item item w
   = (w2, [EvClockNow; EvMakePriority 0%Z; EvRunWithResponse []; EvWgWait],
      Panic "index out of range")) /\
  (forall atPush wp evp ris wr evr,
      maybePushTransactions (intents atPush)
        {| Header_Timestamp := now; Header_Txn := None; Header_UserPriority := 0%Z |}
        PUSH_TOUCH w = (wp, evp, Ret (ris, None)) ->
      resolveIntents r ris true false wp = (wr, evr, Ret None) ->
      (intents item = [] ->
       processIntentsTask r now (args item) atPush item w
       = (wr, evp ++ evr, Panic "index out of range")) /\
      (intents item <> [] ->
       exists w3 ev3,
         processIntentsTask r now (args item) atPush item w
         = (w3, evp ++ evr ++ ev3, Ret tt))).
Proof.
  intros Hmethod. apply Method_eqb_eq in Hmethod. split.
  - intros Hnil Hclock Hprio Hdb.
    unfold processIntentsTask. rewrite Hnil, Hmethod.
    unfold maybePushTransactions, pusherOf, clockNow, makePriority,
      runWithResponse, call, lift, bind, ret, panic.
    cbn. rewrite Hclock, Hprio. cbn. rewrite Hdb. reflexivity.
  - intros atPush wp evp ris wr evr Hpush Hres.
    unfold processIntentsTask, bind. rewrite Hpush. cbn [fst snd].
    rewrite Hres, Hmethod.
    destruct (intents item) as [|intent rest].
    + split; [intros _|congruence]. unfold panic. now rewrite app_nil_r.
    + split; [congruence|intros _].
      unfold warning, emit, ret, replicaAddWriteCmd, call.
      match goal with
      | |- context [addWriteCmd ?ba ?wg ?w] =>
          destruct (addWriteCmd ba wg w) as [w3 [gcErr|]]
      end; cbn; eauto.
Qed.

(** C5: every resolve request a call to [resolveIntents] hands out carries
    the poison flag of that call; on the conflict path
    ([processWriteIntentError]) every resolve request is poisoning, and in
    the post-commit task ([processIntentsAsync]) none is. *)
Theorem poison_follows_caller :
  (forall r intents poison req,
      In req (fst (splitLocal r poison intents) ++ snd (splitLocal r poison intents)) ->
      poisonOf req = Some poison) /\
  (forall r intents wait poison w e req,
      In e (snd (fst (resolveIntents r intents wait poison w))) ->
      In req (requestsOf e) ->
      poisonOf req = Some poison) /\
  (forall wiErr r args h pushType w e req flag,
      In e (snd (fst (processWriteIntentError wiErr r args h pushType w))) ->
      In req (requestsOf e) ->
      poisonOf req = Some flag ->
      flag = true) /\
  (forall r now reqArgs atPush atGC w e req flag,
      In e (snd (fst (processIntentsTask r now reqArgs atPush atGC w))) ->
      In req (requestsOf e) ->
      poisonOf req = Some flag ->
      flag = false).
Proof.
  split; [|split; [|split]].
  - intros r intents poison. apply splitLocal_poison.
  - intros r intents wait poison w. apply resolveIntents_poison.
  - intros wiErr r args h pushType w e req flag He Hreq Hflag.
    unfold processWriteIntentError in He.
    apply bind_events in He as [He|[pushed [_ He]]].
    + destruct (maybePushTransactions_requests (Intents wiErr) h pushType w)
        as [Hpush _].
      destruct (Hpush e req He Hreq) as [p [-> _]]. discriminate Hflag.
    + apply bind_events in He as [He|[resErr [_ He]]].
      * rewrite (resolveIntents_poison _ _ _ _ _ _ _ He Hreq) in Hflag. congruence.
      * apply bind_events in He as [He|[u [_ He]]].
        -- destruct resErr; cbn in He; [destruct He as [<-|[]]|destruct He].
           destruct Hreq.
        -- destruct (snd pushed);
             [destruct (hasTxnID h && negb (IsReadOnly args))|];
             cbn in He; destruct He.
  - intros r now reqArgs atPush atGC w e req flag He Hreq Hflag.
    unfold processIntentsTask in He.
    apply bind_events in He as [He|[pushed [_ He]]].
    + match type of He with
      | In _ (snd (fst (maybePushTransactions ?i ?h ?t ?w))) =>
          destruct (maybePushTransactions_requests i h t w) as [Hpush _]
      end.
      destruct (Hpush e req He Hreq) as [p [-> _]]. discriminate Hflag.
    + apply bind_events in He as [He|[pErr [_ He]]].
      * rewrite (resolveIntents_poison _ _ _ _ _ _ _ He Hreq) in Hflag. congruence.
      * destruct pErr; [cbn in He; destruct He as [<-|[]]; destruct Hreq|].
        destruct (snd pushed); [cbn in He; destruct He as [<-|[]]; destruct Hreq|].
        destruct (Method_eqb (Args_Method reqArgs) EndTransaction);
          [|destruct He].
        apply bind_events in He as [He|[txn [_ He]]].
        -- destruct (intents atGC); cbn in He; destruct He.
        -- apply bind_events in He as [He|[gcErr [_ He]]].
           ++ unfold replicaAddWriteCmd, call in He.
              match type of He with
              | context [addWriteCmd ?ba ?wg ?w] =>
                  destruct (addWriteCmd ba wg w)
              end.
              cbn in He. destruct He as [<-|[]].
              cbn in Hreq. destruct Hreq as [<-|[]]. discriminate Hflag.
           ++ destruct gcErr; cbn in He; [destruct He as [<-|[]]|destruct He].
              destruct Hreq.
Qed.

(** *** More on maybePushTransactions *)

Lemma pusherOf_cases (h : Header) w :
  (forall txn, Header_Txn h = Some txn ->
     pusherOf (Header_Txn h) h w = (w, [], Ret txn)) /\
  (Header_Txn h = None ->
     pusherOf (Header_Txn h) h w
     = (fst (MakePriority (Header_UserPriority h) w),
        [EvMakePriority (Header_UserPriority h)],
        Ret {| Txn_Meta := ZeroTxnMeta;
               Txn_Priority := snd (MakePriority (Header_UserPriority h) w);
               Txn_Status := PENDING |})).
Proof.
  split.
  - intros txn ->. reflexivity.
  - intros ->. unfold pusherOf, makePriority, call, bind, ret.
    now destruct (MakePriority (Header_UserPriority h) w).
Qed.

(** Every run of [maybePushTransactions] has the shape described by
    [maybePushTransactions_exec]. *)
Lemma maybePushTransactions_run intents h pushType w :
  exists w0 now w1 evp pusher w2 br err,
    Clock_Now w = (w0, now) /\
    pusherOf (Header_Txn h) h w0 = (w1, evp, Ret pusher) /\
    (evp = [] \/ evp = [EvMakePriority (Header_UserPriority h)]) /\
    db_RunWithResponse
      (map (pushRequest pusher h now pushType) (filter isPending intents)) w1
    = (w2, (br, err)) /\
    maybePushTransactions intents h pushType w
    = (w2,
       EvClockNow :: evp ++
         [EvRunWithResponse
            (map (pushRequest pusher h now pushType) (filter isPending intents))],
       match err with
       | Some e => Ret ([], Some e)
       | None =>
           match mergeResponses br 0 (filter isPending intents)
                   (filter (fun i => negb (isPending i)) intents) with
           | Ret ris => Ret (ris, None)
           | Panic msg => Panic msg
           end
       end).
Proof.
  destruct (Clock_Now w) as [w0 now] eqn:Hclock.
  destruct (pusherOf_cases h w0) as [Hsome Hnone].
  destruct (Header_Txn h) as [txn|] eqn:Htxn.
  - specialize (Hsome txn eq_refl).
    destruct (db_RunWithResponse
                (map (pushRequest txn h now pushType) (filter isPending intents)) w0)
      as [w2 [br err]] eqn:Hdb.
    exists w0, now, w0, [], txn, w2, br, err.
    repeat split; auto.
    eapply maybePushTransactions_exec; [exact Hclock| |exact Hdb]. now rewrite Htxn.
  - specialize (Hnone eq_refl).
    match type of Hnone with
    | _ = (?w1, ?evp, Ret ?pusher) =>
        destruct (db_RunWithResponse
                    (map (pushRequest pusher h now pushType) (filter isPending intents)) w1)
          as [w2 [br err]] eqn:Hdb;
        exists w0, now, w1, evp, pusher, w2, br, err
    end.
    repeat split; auto.
    eapply maybePushTransactions_exec; [exact Hclock| |exact Hdb]. now rewrite Htxn.
Qed.

(** X1: a call reads the clock once, before anything else, and sends one
    push batch holding one request per PENDING intent, in input order; the
    k-th request addresses the anchor key of the k-th pending intent's
    transaction, names that transaction as pushee, pushes to the header's
    timestamp and carries the clock reading of this call as [Now]. *)
Theorem maybePushTransactions_push_batch intents h pushType w w0 now :
  Clock_Now w = (w0, now) ->
  exists pusher reqs ev',
    snd (fst (maybePushTransactions intents h pushType w)) = EvClockNow :: ev' /\
    ~ In EvClockNow ev' /\
    filter isPushBatch ev' = [EvRunWithResponse reqs] /\
    List.length reqs = List.length (filter isPending intents) /\
    forall k intent,
      nth_error (filter isPending intents) k = Some intent ->
      nth_error reqs k
      = Some (ReqPushTxn
                {| Push_Span := {| Span_Key := TxnMeta_Key (Intent_Txn intent);
                                   Span_EndKey := [] |};
                   PusherTxn := pusher;
                   PusheeTxn := Intent_Txn intent;
                   PushTo := Header_Timestamp h;
                   Now := now;
                   PushType := pushType |}).
Proof.
  intros Hclock.
  destruct (maybePushTransactions_run intents h pushType w)
    as (w0' & now' & w1 & evp & pusher & w2 & br & err
        & Hclock' & _ & Hevp & _ & Hrun).
  rewrite Hclock in Hclock'. injection Hclock' as <- <-.
  rewrite Hrun. cbn [fst snd].
  exists pusher. eexists. eexists. split; [reflexivity|].
  split; [|split; [|split]].
  - rewrite in_app_iff. intros [H|[H|[]]]; [|discriminate H].
    destruct Hevp as [->| ->]; [destruct H|destruct H as [H|[]]; discriminate H].
  - rewrite filter_app. destruct Hevp as [->| ->]; reflexivity.
  - apply length_map.
  - intros k intent Hk. now apply (map_nth_error (pushRequest pusher h now pushType)).
Qed.

(** X2: the pusher named in every push request is the header's transaction
    when there is one, and then no priority is drawn: the call is the clock
    reading followed by the push batch.  Without one, a priority is drawn
    exactly once, between the clock reading and the push batch, from the
    header's user priority, and the pusher is an otherwise empty
    transaction with that priority. *)
Theorem maybePushTransactions_pusher intents h pushType w :
  let ev := snd (fst (maybePushTransactions intents h pushType w)) in
  (forall txn,
      Header_Txn h = Some txn ->
      (exists reqs, ev = [EvClockNow; EvRunWithResponse reqs]) /\
      (forall up, ~ In (EvMakePriority up) ev) /\
      forall e req, In e ev -> In req (requestsOf e) ->
        exists p, req = ReqPushTxn p /\ PusherTxn p = txn) /\
  (Header_Txn h = None ->
      (exists reqs,
          ev = [EvClockNow; EvMakePriority (Header_UserPriority h);
                EvRunWithResponse reqs]) /\
      forall e req, In e ev -> In req (requestsOf e) ->
        exists p, req = ReqPushTxn p /\
          PusherTxn p
          = {| Txn_Meta := ZeroTxnMeta;
               Txn_Priority :=
                 snd (MakePriority (Header_UserPriority h) (fst (Clock_Now w)));
               Txn_Status := PENDING |}).
Proof.
  intros ev. subst ev.
  destruct (maybePushTransactions_run intents h pushType w)
    as (w0 & now & w1 & evp & pusher & w2 & br & err
        & Hclock & Hpusher & _ & _ & Hrun).
  rewrite Hrun, Hclock. cbn [fst snd].
  destruct (pusherOf_cases h w0) as [Hsome Hnone].
  split.
  - intros txn Htxn. rewrite (Hsome txn Htxn) in Hpusher.
    injection Hpusher as <- <- <-. cbn [app]. split; [eauto|]. split.
    + intros up [H|[H|[]]]; discriminate H.
    + intros e req [<-|[<-|[]]] Hreq; cbn in Hreq; [destruct Hreq|].
      apply in_map_iff in Hreq as [intent [<- _]]. eexists. now split.
  - intros Htxn. rewrite (Hnone Htxn) in Hpusher.
    injection Hpusher as <- <- <-. cbn [app]. split; [eauto|].
    intros e req [<-|[<-|[<-|[]]]] Hreq; cbn in Hreq; try destruct Hreq.
    apply in_map_iff in Hreq as [intent [<- _]]. eexists. now split.
Qed.

Lemma filter_none {A} (f : A -> bool) (l : list A) :
  (forall x, In x l -> f x = false) -> filter f l = [].
Proof.
  induction l as [|x l IH]; intros H; [reflexivity|]. cbn.
  rewrite (H x (or_introl eq_refl)). apply IH. intros y Hy. apply H. now right.
Qed.

Lemma filter_all {A} (f : A -> bool) (l : list A) :
  (forall x, In x l -> f x = true) -> filter f l = l.
Proof.
  induction l as [|x l IH]; intros H; [reflexivity|]. cbn.
  rewrite (H x (or_introl eq_refl)). f_equal. apply IH. intros y Hy. apply H. now right.
Qed.

(** X3: when no input intent is PENDING the call still sends a push batch,
    an empty one, and what that batch returns decides the result: if it
    returns no error the input comes back as it is, in its order, whatever
    the response holds; if it returns an error, a nil slice comes back with
    that very error.  The call does not panic. *)
Theorem maybePushTransactions_nothing_pending
    intents h pushType w w0 now w1 evp pusher w2 br err :
  (forall intent, In intent intents -> Intent_Status intent <> PENDING) ->
  Clock_Now w = (w0, now) ->
  pusherOf (Header_Txn h) h w0 = (w1, evp, Ret pusher) ->
  db_RunWithResponse [] w1 = (w2, (br, err)) ->
  exists out,
    maybePushTransactions intents h pushType w
    = (w2, EvClockNow :: evp ++ [EvRunWithResponse []], out) /\
    (err = None -> out = Ret (intents, None)) /\
    (forall e, err = Some e -> out = Ret ([], Some e)).
Proof.
  intros Hfinal Hclock Hpusher Hdb.
  assert (Hnone : filter isPending intents = []).
  { apply filter_none. intros i Hi. specialize (Hfinal i Hi).
    apply isPending_false in Hfinal. now destruct (isPending i). }
  assert (Hall : filter (fun i => negb (isPending i)) intents = intents).
  { apply filter_all. intros i Hi. now apply isPending_false, Hfinal. }
  pose proof (maybePushTransactions_exec intents h pushType w w0 now w1 evp
                pusher w2 br err Hclock Hpusher) as Hrun.
  rewrite Hnone, Hall in Hrun. cbn [map mergeResponses] in Hrun.
  rewrite (Hrun Hdb).
  eexists. split; [reflexivity|].
  destruct err as [e|]; split; congruence.
Qed.

Lemma mergeResponses_malformed (pushIntents : list Intent) :
  forall pushees front acc,
    (List.length pushees < List.length pushIntents)%nat ->
    mergeResponses (front ++ map RespPushTxn pushees) (List.length front) pushIntents acc
    = Panic "index out of range" /\
    forall rest,
      mergeResponses (front ++ map RespPushTxn pushees ++ RespOther :: rest)
                     (List.length front) pushIntents acc
      = Panic "interface conversion".
Proof.
  induction pushIntents as [|intent others IH]; intros pushees front acc Hlen;
    [cbn in Hlen; lia|].
  destruct pushees as [|pushee pushees].
  - cbn [map app mergeResponses]. rewrite app_nil_r. split.
    + now rewrite (proj2 (nth_error_None front (List.length front)) (Nat.le_refl _)).
    + intros rest. rewrite nth_error_app2 by lia. now rewrite Nat.sub_diag.
  - cbn in Hlen. apply PeanoNat.lt_S_n in Hlen.
    destruct (IH pushees (front ++ [RespPushTxn pushee])
                 (acc ++ [withPushee intent pushee]) Hlen) as [IHshort IHother].
    rewrite length_app in IHshort, IHother. cbn [List.length] in IHshort, IHother.
    rewrite Nat.add_1_r in IHshort, IHother.
    rewrite <- app_assoc in IHshort. cbn [app] in IHshort.
    cbn [map app mergeResponses]. split.
    + rewrite nth_error_app2 by lia. rewrite Nat.sub_diag. cbn [nth_error].
      exact IHshort.
    + intros rest. rewrite nth_error_app2 by lia. rewrite Nat.sub_diag.
      cbn [nth_error]. specialize (IHother rest).
      rewrite <- app_assoc in IHother. exact IHother.
Qed.

(** X4: a push batch that comes back without error but with fewer responses
    than pending intents makes the call panic with an index out of range;
    one that answers only the first few pending intents with push responses
    and goes on with a response of another kind makes it panic on the type
    assertion. *)
Theorem maybePushTransactions_malformed_response
    intents h pushType w w0 now w1 evp pusher w2 pushees tail :
  Clock_Now w = (w0, now) ->
  pusherOf (Header_Txn h) h w0 = (w1, evp, Ret pusher) ->
  db_RunWithResponse
    (map (pushRequest pusher h now pushType) (filter isPending intents)) w1
  = (w2, (map RespPushTxn pushees ++ tail, None)) ->
  (List.length pushees < List.length (filter isPending intents))%nat ->
  (tail = [] ->
   snd (maybePushTransactions intents h pushType w) = Panic "index out of range") /\
  (forall rest, tail = RespOther :: rest ->
   snd (maybePushTransactions intents h pushType w) = Panic "interface conversion").
Proof.
  intros Hclock Hpusher Hdb Hlen.
  rewrite (maybePushTransactions_exec _ _ _ _ _ _ _ _ _ _ _ _ Hclock Hpusher Hdb).
  cbn [snd].
  destruct (mergeResponses_malformed (filter isPending intents) pushees []
              (filter (fun i => negb (isPending i)) intents) Hlen) as [Hshort Hother].
  cbn [app List.length] in Hshort, Hother.
  split.
  - intros ->. rewrite app_nil_r. now rewrite Hshort.
  - intros rest ->. now rewrite Hother.
Qed.

(** X5: responses beyond the number of pending intents are never looked at:
    with one push response per pending intent up front, the result is the
    same whatever follows them. *)
Theorem maybePushTransactions_ignores_surplus
    intents h pushType w w0 now w1 evp pusher w2 pushees surplus :
  Clock_Now w = (w0, now) ->
  pusherOf (Header_Txn h) h w0 = (w1, evp, Ret pusher) ->
  db_RunWithResponse
    (map (pushRequest pusher h now pushType) (filter isPending intents)) w1
  = (w2, (map RespPushTxn pushees ++ surplus, None)) ->
  List.length pushees = List.length (filter isPending intents) ->
  snd (maybePushTransactions intents h pushType w)
  = Ret (filter (fun i => negb (isPending i)) intents
           ++ zipPushees (filter isPending intents) pushees, None).
Proof.
  intros Hclock Hpusher Hdb Hlen.
  rewrite (maybePushTransactions_exec _ _ _ _ _ _ _ _ _ _ _ _ Hclock Hpusher Hdb).
  cbn [snd].
  pose proof (mergeResponses_answered (filter isPending intents) pushees [] surplus
                (filter (fun i => negb (isPending i)) intents) Hlen) as Hmerge.
  cbn [app List.length] in Hmerge. now rewrite Hmerge.
Qed.

Lemma mergeResponses_spans responses (pushIntents : list Intent) :
  forall i acc out,
    mergeResponses responses i pushIntents acc = Ret out ->
    exists pushed,
      out = acc ++ pushed /\
      map Intent_Span pushed = map Intent_Span pushIntents.
Proof.
  induction pushIntents as [|intent rest IH]; intros i acc out Hmerge.
  - cbn in Hmerge. injection Hmerge as <-. exists []. now rewrite app_nil_r.
  - cbn [mergeResponses] in Hmerge.
    destruct (nth_error responses i) as [[pushee|]|]; try discriminate.
    destruct (IH _ _ _ Hmerge) as [pushed [-> Hspans]].
    exists (withPushee intent pushee :: pushed). split.
    + now rewrite <- app_assoc.
    + cbn. now rewrite Hspans.
Qed.

(** X6: whenever the call returns without error, the finalized intents come
    back untouched and first, followed by one intent per pending input
    intent with, position by position, the same span: a push changes the
    transaction and status of an intent, never the keys it covers, so the
    spans returned are a rearrangement of the spans given. *)
Theorem maybePushTransactions_keeps_spans intents h pushType w w' ev returned :
  maybePushTransactions intents h pushType w = (w', ev, Ret (returned, None)) ->
  exists pushed,
    returned = filter (fun i => negb (isPending i)) intents ++ pushed /\
    map Intent_Span pushed = map Intent_Span (filter isPending intents) /\
    Permutation (map Intent_Span returned) (map Intent_Span intents) /\
    List.length returned = List.length intents.
Proof.
  intros Hret.
  destruct (maybePushTransactions_run intents h pushType w)
    as (w0 & now & w1 & evp & pusher & w2 & br & err & _ & _ & _ & _ & Hrun).
  rewrite Hrun in Hret. injection Hret as _ _ Hout.
  destruct err as [e|]; [discriminate|].
  destruct (mergeResponses br 0 (filter isPending intents)
              (filter (fun i => negb (isPending i)) intents)) as [ris|msg] eqn:Hmerge;
    [|discriminate].
  injection Hout as ->.
  destruct (mergeResponses_spans _ _ _ _ _ Hmerge) as [pushed [-> Hspans]].
  exists pushed. split; [reflexivity|]. split; [exact Hspans|].
  assert (Hperm : Permutation
                    (map Intent_Span
                       (filter (fun i => negb (isPending i)) intents ++ pushed))
                    (map Intent_Span intents)).
  { rewrite map_app, Hspans, <- map_app. apply Permutation_map.
    apply Permutation_sym.
    eapply Permutation_trans; [apply (filter_split_Permutation isPending)|].
    apply Permutation_app_comm. }
  split; [exact Hperm|].
  apply Permutation_length in Hperm. now rewrite !length_map in Hperm.
Qed.

(** *** When the push fails *)

Lemma maybePushTransactions_error_nil intents h pushType w w1 ev1 ris e :
  maybePushTransactions intents h pushType w = (w1, ev1, Ret (ris, Some e)) ->
  ris = [].
Proof.
  intros Hret.
  destruct (maybePushTransactions_run intents h pushType w)
    as (w0 & now & w1' & evp & pusher & w2 & br & err & _ & _ & _ & _ & Hrun).
  rewrite Hrun in Hret. injection Hret as _ _ Hout.
  destruct err as [e'|]; [now injection Hout|].
  destruct (mergeResponses br 0 (filter isPending intents)
              (filter (fun i => negb (isPending i)) intents)); discriminate.
Qed.

(** X7: when the Pusher comes back with an error, [processWriteIntentError]
    resolves nothing at all, not even intents whose transactions were
    already finalized: after the push it talks to no collaborator and to no
    pool, and it answers with the push error or the untouched conflict
    error. *)
Theorem processWriteIntentError_push_failure_resolves_nothing
    wiErr r args h pushType w w1 ev1 ris e :
  maybePushTransactions (Intents wiErr) h pushType w = (w1, ev1, Ret (ris, Some e)) ->
  exists result,
    processWriteIntentError wiErr r args h pushType w
    = (w1, ev1 ++ [EvWgWait], Ret (Some result)) /\
    (result = e \/ result = NewError (DetailWriteIntent wiErr)).
Proof.
  intros Hpush.
  pose proof (maybePushTransactions_error_nil _ _ _ _ _ _ _ _ Hpush) as ->.
  unfold processWriteIntentError, bind. rewrite Hpush. cbn [fst snd].
  change (resolveIntents r [] false true w1)
    with (w1, [EvWgWait], @Ret (option Error) None).
  cbn. destruct (hasTxnID h && negb (IsReadOnly args)); cbn; eauto.
Qed.

(** X8: when the Pusher comes back with an error, the post-commit task
    resolves nothing and collects nothing, whatever the request was: it
    logs the push failure and returns. *)
Theorem processIntentsTask_push_failure_stops
    r now reqArgs atPush atGC w w1 ev1 ris e :
  maybePushTransactions (intents atPush)
    {| Header_Timestamp := now; Header_Txn := None; Header_UserPriority := 0%Z |}
    PUSH_TOUCH w = (w1, ev1, Ret (ris, Some e)) ->
  processIntentsTask r now reqArgs atPush atGC w
  = (w1,
     ev1 ++ [EvWgWait; EvWarning "failed to push during intent resolution" e],
     Ret tt).
Proof.
  intros Hpush.
  pose proof (maybePushTransactions_error_nil _ _ _ _ _ _ _ _ Hpush) as ->.
  unfold processIntentsTask, bind. rewrite Hpush. cbn [fst snd].
  change (resolveIntents r [] true false w1)
    with (w1, [EvWgWait], @Ret (option Error) None).
  reflexivity.
Qed.

(** *** More on resolveIntents *)

(** X9: without [wait] and with a pool that takes the tasks, the call hands
    each non-empty batch to the pool, runs nothing itself and returns nil
    after waiting on its wait group. *)
Theorem resolveIntents_async_accepted r intents poison w w1 w2 :
  let baLocal := fst (splitLocal r poison intents) in
  let reqsRemote := snd (splitLocal r poison intents) in
  RunAsyncTask w = (w1, true) ->
  RunAsyncTask (match baLocal with [] => w | _ => w1 end) = (w2, true) ->
  exists w' ev,
    resolveIntents r intents false poison w = (w', ev, Ret None) /\
    filter isWrite ev = [] /\
    filter isRun ev = [] /\
    scheduled ev
    = match baLocal with [] => [] | _ => [TaskResolveLocal baLocal] end
        ++ match reqsRemote with [] => [] | _ => [TaskResolveRemote reqsRemote] end /\
    last ev EvWgAdd = EvWgWait.
Proof.
  intros baLocal reqsRemote Hfirst Hsecond.
  unfold_resolve. fold baLocal reqsRemote. clearbody baLocal reqsRemote.
  destruct baLocal as [|b bl]; destruct reqsRemote as [|q ql]; cbn;
    rewrite ?Hfirst; cbn; rewrite ?Hsecond; cbn;
    do 2 eexists; repeat split.
Qed.

(** X10: in every run the wait on the wait group is reached exactly when
    nil is returned, the wait group is armed exactly when there is a local
    batch, and an error is returned only straight after the synchronous
    call that produced it: the last event is then the local batch on the
    write path or the remote batch on the cluster client. *)
Theorem resolveIntents_wait_group r intents wait poison w :
  let baLocal := fst (splitLocal r poison intents) in
  let reqsRemote := snd (splitLocal r poison intents) in
  let ev := snd (fst (resolveIntents r intents wait poison w)) in
  let out := snd (resolveIntents r intents wait poison w) in
  (out = Ret None <-> In EvWgWait ev) /\
  (In EvWgAdd ev <-> baLocal <> []) /\
  (forall e, out = Ret (Some e) ->
     last ev EvWgAdd = EvAddWriteCmd baLocal true \/
     last ev EvWgAdd = EvRun reqsRemote).
Proof.
  intros baLocal reqsRemote.
  unfold_resolve. fold baLocal reqsRemote. clearbody baLocal reqsRemote.
  destruct baLocal as [|b bl]; destruct reqsRemote as [|q ql];
    destruct wait; cbn; repeat oracle;
    (split; [split; [intros H; try discriminate H; auto 8
                    |intros H; repeat destruct H as [H|H]; try discriminate H;
                     try contradiction; reflexivity]
            |split; [split; [intros H; repeat destruct H as [H|H];
                             try discriminate H; try contradiction; discriminate
                            |intros H; try (now elim H); auto]
                    |intros e' H; try discriminate H; auto]]).
Qed.

(** X11: on a stopper that declines every task, a call without [wait] does
    exactly what a call with [wait] does: the same synchronous calls in the
    same order, the same result and the same final state; the declined
    submissions are the only difference in the trace. *)
Theorem resolveIntents_draining_as_wait r intents poison w :
  (forall w', RunAsyncTask w' = (w', false)) ->
  fst (fst (resolveIntents r intents false poison w))
  = fst (fst (resolveIntents r intents true poison w)) /\
  snd (resolveIntents r intents false poison w)
  = snd (resolveIntents r intents true poison w) /\
  filter (fun e => negb (isAsync e))
         (snd (fst (resolveIntents r intents false poison w)))
  = snd (fst (resolveIntents r intents true poison w)).
Proof.
  intros Hdrain.
  unfold_resolve.
  destruct (fst (splitLocal r poison intents)) as [|b bl];
    destruct (snd (splitLocal r poison intents)) as [|q ql]; cbn;
    repeat first
      [ rewrite Hdrain; cbn
      | match goal with
        | |- context [addWriteCmd ?ba ?wg ?w] =>
            destruct (addWriteCmd ba wg w) as [? [?|]]; cbn
        | |- context [db_Run ?reqs ?w] =>
            destruct (db_Run reqs w) as [? [?|]]; cbn
        end ];
    auto.
Qed.

(** *** More on processIntentsAsync *)

Lemma scheduleAll_only_schedules now items :
  forall w,
    snd (scheduleAll now items w) = Ret tt /\
    Forall (fun e => isAsync e = true) (snd (fst (scheduleAll now items w))) /\
    List.length (snd (fst (scheduleAll now items w))) = List.length items.
Proof.
  induction items as [|item rest IH]; intros w.
  - cbn. repeat split. constructor.
  - cbn [scheduleAll]. unfold bind, runAsyncTask.
    destruct (RunAsyncTask w) as [w1 accepted].
    destruct (IH w1) as [Hout [Hev Hlen]].
    destruct (scheduleAll now rest w1) as [[w2 ev2] o]. cbn in *.
    subst o. repeat split; [|now rewrite Hlen].
    constructor; [reflexivity|exact Hev].
Qed.

(** X12: [processIntentsAsync] does nothing for an empty list, not even
    read the clock.  Otherwise it reads the clock once and then only
    submits tasks to the pool, one per item; it pushes, resolves and
    collects nothing itself, and it returns normally whether the pool took
    the tasks or not: a declined task is not run in its place. *)
Theorem processIntentsAsync_only_schedules r items w :
  let ev := snd (fst (processIntentsAsync r items w)) in
  snd (processIntentsAsync r items w) = Ret tt /\
  (items = [] -> ev = [] /\ fst (fst (processIntentsAsync r items w)) = w) /\
  (items <> [] ->
   exists ev', ev = EvClockNow :: ev' /\
               Forall (fun e => isAsync e = true) ev' /\
               List.length ev' = List.length items) /\
  filter isPushBatch ev = [] /\ filter isWrite ev = [] /\ filter isRun ev = [].
Proof.
  unfold processIntentsAsync.
  destruct items as [|item rest]; cbn [List.length Nat.eqb].
  - cbn. repeat split; congruence.
  - unfold bind, clockNow, call. destruct (Clock_Now w) as [w0 now].
    destruct (scheduleAll_only_schedules now (item :: rest) w0) as [Hout [Hev Hlen]].
    destruct (scheduleAll now (item :: rest) w0) as [[w2 ev2] o].
    cbn [fst snd app] in *. subst o.
    assert (Hquiet : forall f : Event -> bool,
               (forall e, isAsync e = true -> f e = false) -> filter f ev2 = []).
    { intros f Hf. apply filter_none. intros e He. apply Hf.
      rewrite Forall_forall in Hev. now apply Hev. }
    split; [reflexivity|]. split; [congruence|].
    split; [intros _; exists ev2; auto|].
    cbn [filter isPushBatch isWrite isRun].
    repeat split; apply Hquiet; intros [] He; try discriminate He; reflexivity.
Qed.

(** X13: in every run, with or without [wait], a non-empty local batch is
    handed over: it reaches the write path on the caller's task or is taken
    by the pool.  A non-empty remote batch is handed over in the same way
    unless the call returns an error straight after running the local
    batch itself; that is the only way the remote batch is left out. *)
Theorem resolveIntents_hands_over r intents wait poison w :
  let baLocal := fst (splitLocal r poison intents) in
  let reqsRemote := snd (splitLocal r poison intents) in
  let ev := snd (fst (resolveIntents r intents wait poison w)) in
  let out := snd (resolveIntents r intents wait poison w) in
  (baLocal <> [] ->
   In (EvAddWriteCmd baLocal true) ev \/
   In (EvRunAsyncTask (TaskResolveLocal baLocal) true) ev) /\
  (reqsRemote <> [] ->
   In (EvRun reqsRemote) ev \/
   In (EvRunAsyncTask (TaskResolveRemote reqsRemote) true) ev \/
   exists e, out = Ret (Some e) /\ last ev EvWgAdd = EvAddWriteCmd baLocal true).
Proof.
  intros baLocal reqsRemote.
  unfold_resolve. fold baLocal reqsRemote. clearbody baLocal reqsRemote.
  destruct baLocal as [|b bl]; destruct reqsRemote as [|q ql];
    destruct wait; cbn; repeat oracle;
    (split; intros H; try (now elim H); auto 10; eauto 10).
Qed.

End Facts.

(** ** Scenarios on the scripted cluster *)

(** C2: the push batch for [{intentA (COMMITTED), intentB (PENDING)}] fails.
    The code returns the push error with a nil slice, so the finalized
    [intentA] is not handed back for cleanup. *)
Lemma maybePushTransactions_error_loses_finalized :
  exists w ev returned,
    @maybePushTransactions scripted [intentA; intentB] plainHeader PUSH_ABORT pushFails
    = (w, ev, Ret (returned, Some pushFailed)) /\
    returned = [] /\
    ~ keepsFinalized [intentA; intentB] returned.
Proof.
  do 3 eexists. split; [vm_compute; reflexivity|]. split; [reflexivity|].
  intros H. apply (H intentA); [now left|discriminate].
Qed.

(** C3 does not hold as stated: with a local and a remote intent and a
    write path that fails, the call made with [wait] returns the local error
    and the remote batch is never dispatched. *)
Lemma resolveIntents_wait_skips_remote_after_local_error :
  ~ @dispatchesBothBatches scripted replicaAC [intentA; intentCD] false writesFail.
Proof.
  intros [_ Hremote].
  assert (Hne : snd (@splitLocal replicaAC false [intentA; intentCD]) <> [])
    by (vm_compute; discriminate).
  specialize (Hremote Hne). vm_compute in Hremote.
  destruct Hremote as [H|[H|[]]]; discriminate H.
Qed.

(** The kick-off fails (the pool is draining and the write path errs) after
    a successful push: the caller still gets the conflict error with
    Resolved set, and the failure shows up as a warning only. *)
Lemma processWriteIntentError_outcome_witness :
  exists ev,
    @processWriteIntentError scripted
      {| Intents := [intentB]; Resolved := false |}
      replicaAC putArgs writerHeader PUSH_ABORT drainingWritesFail
    = (tick drainingWritesFail, ev,
       Ret (Some (NewError (DetailWriteIntent
                              {| Intents := [intentB]; Resolved := true |})))) /\
    In (EvWarning "asynchronous resolveIntents failed" writeFailed) ev.
Proof.
  edestruct (@processWriteIntentError_outcome scripted
               {| Intents := [intentB]; Resolved := false |}
               replicaAC putArgs writerHeader PUSH_ABORT drainingWritesFail)
    as [result [Hrun [Hresolved _]]].
  - vm_compute. reflexivity.
  - vm_compute. reflexivity.
  - rewrite Hrun, (Hresolved eq_refl). eexists. split; [reflexivity|].
    apply in_or_app. right. apply in_or_app. right. now left.
Defined.

(** A local and a remote intent, resolved with [wait] on a cluster whose
    write path fails: the local error comes back and nothing is run through
    the cluster client. *)
Lemma resolveIntents_wait_sequential_witness :
  exists ev,
    @resolveIntents scripted replicaAC [intentA; intentCD] true false writesFail
    = (writesFail, ev, Ret (Some writeFailed)) /\
    filter isRun ev = [] /\ filter isAsync ev = [].
Proof.
  destruct (@resolveIntents_wait_sequential scripted replicaAC [intentA; intentCD]
              false writesFail writesFail (Some writeFailed) writesFail None
              eq_refl eq_refl)
    as [w' [ev [out [Hrun [Hpool [_ [_ [Hlocal _]]]]]]]].
  destruct (Hlocal ltac:(discriminate) writeFailed eq_refl) as [Hout [Hnorun Hw]].
  exists ev. rewrite Hrun, Hout, Hw. auto.
Defined.

(** Three intents, two of them pending, pushed on a cluster that aborts
    every pushee. *)
Lemma maybePushTransactions_classification_witness :
  exists ev,
    @maybePushTransactions scripted [intentA; intentB; intentCD] plainHeader
      PUSH_ABORT writesFail
    = (tick writesFail, ev,
       Ret ([intentA;
             {| Intent_Span := {| Span_Key := key "b"; Span_EndKey := [] |};
                Intent_Txn := T4; Intent_Status := ABORTED |};
             {| Intent_Span := {| Span_Key := key "c"; Span_EndKey := key "d" |};
                Intent_Txn := T6; Intent_Status := ABORTED |}], None)).
Proof.
  destruct (@maybePushTransactions_classification scripted
              [intentA; intentB; intentCD] plainHeader PUSH_ABORT
              writesFail (tick writesFail) {| WallTime := 100; Logical := 0 |}
              (tick writesFail) [EvMakePriority 0%Z]
              {| Txn_Meta := ZeroTxnMeta; Txn_Priority := 1; Txn_Status := PENDING |}
              (tick writesFail) [pushee T4 ABORTED; pushee T6 ABORTED]
              eq_refl eq_refl eq_refl eq_refl)
    as [_ [_ [_ [ev [returned [Hrun [_ [Hkept [Hpushed [_ Hlen]]]]]]]]]].
  exists ev. rewrite Hrun.
  pose proof (Hkept 0%nat intentA eq_refl) as H0.
  pose proof (Hpushed 0%nat intentB (pushee T4 ABORTED) eq_refl eq_refl) as H1.
  pose proof (Hpushed 1%nat intentCD (pushee T6 ABORTED) eq_refl eq_refl) as H2.
  destruct returned as [|r0 [|r1 [|r2 [|r3 returned]]]]; try discriminate Hlen.
  cbn in H0, H1, H2. injection H0 as ->. injection H1 as ->. injection H2 as ->.
  reflexivity.
Defined.

(** [intentA] is local and the pool is draining while the write path
    fails; [intentA] and [intentCD] on a draining pool while the cluster
    client fails. *)
Lemma resolveIntents_draining_runs_inline_witness :
  snd (@resolveIntents scripted replicaAC [intentA] false true drainingWritesFail)
  = Ret (Some writeFailed) /\
  snd (@resolveIntents scripted replicaAC [intentA; intentCD] false true drainingRunsFail)
  = Ret (Some runFailed).
Proof.
  split.
  - destruct (@resolveIntents_draining_runs_inline scripted replicaAC [intentA]
                true drainingWritesFail) as [Hlocal _].
    destruct (Hlocal drainingWritesFail drainingWritesFail (Some writeFailed)
                ltac:(discriminate) eq_refl eq_refl)
      as [w' [ev' [out [Hrun Herr]]]].
    destruct (Herr writeFailed eq_refl) as [Hout _].
    rewrite Hrun, Hout. reflexivity.
  - destruct (@resolveIntents_draining_runs_inline scripted replicaAC
                [intentA; intentCD] true drainingRunsFail) as [_ Hremote].
    edestruct (Hremote drainingRunsFail) as [ev' [Hrun _]].
    + discriminate.
    + vm_compute. reflexivity.
    + reflexivity.
    + reflexivity.
    + rewrite Hrun. reflexivity.
Defined.

(** The post-commit task for an EndTransaction of T7 that left one intent
    on this range and one outside: after push and resolve, the transaction
    record of T7 is collected over the replica's span. *)
Lemma processIntentsTask_steps_witness :
  let item := {| args := endTxnArgs;
                 intents := [pointIntent "a" T7 COMMITTED;
                             pointIntent "x" T7 COMMITTED] |} in
  exists w3 ev out,
    @processIntentsTask scripted replicaAC {| WallTime := 7; Logical := 0 |}
      (args item) item item committing
    = (w3, ev, out) /\
    out = Ret tt /\
    filter isWrite ev
    = [ EvAddWriteCmd [ReqResolveIntent
                         {| RI_Span := {| Span_Key := key "a"; Span_EndKey := [] |};
                            RI_IntentTxn := T7; RI_Status := COMMITTED;
                            RI_Poison := false |}] true;
        EvAddWriteCmd [@gcRequest scripted replicaAC T7] false ].
Proof.
  intros item.
  edestruct (@processIntentsTask_steps scripted replicaAC
               {| WallTime := 7; Logical := 0 |} (args item) item item committing)
    as [w3 [ev3 [out [Hrun [_ [_ [Hgc _]]]]]]].
  - vm_compute. reflexivity.
  - vm_compute. reflexivity.
  - destruct (Hgc (pointIntent "a" T7 COMMITTED) [pointIntent "x" T7 COMMITTED]
                eq_refl eq_refl eq_refl eq_refl) as [Hev3 [_ Hout]].
    do 3 eexists. split; [exact Hrun|]. split; [exact Hout|].
    rewrite Hev3. vm_compute. reflexivity.
Defined.

(** An EndTransaction item without intents on a well-behaved cluster. *)
Lemma processIntentsTask_EndTransaction_needs_intent_witness :
  snd (@processIntentsTask scripted replicaAC {| WallTime := 7; Logical := 0 |}
         (args emptyEndTxn) emptyEndTxn emptyEndTxn committing)
  = Panic "index out of range".
Proof.
  destruct (@processIntentsTask_EndTransaction_needs_intent scripted replicaAC
              {| WallTime := 7; Logical := 0 |} emptyEndTxn
              committing (tick committing) {| WallTime := 100; Logical := 0 |}
              (tick committing) 1%Z (tick committing) [] eq_refl)
    as [Hempty _].
  rewrite (Hempty eq_refl eq_refl eq_refl eq_refl). reflexivity.
Defined.

(** A writer that wins its push against the owner of a ranged intent
    outside the replica: one remote range request, poisoning, handed to the
    pool; no local batch; the caller is told to retry at once. *)
Example writer_wins_push_on_external_intent :
  @processWriteIntentError scripted
    {| Intents := [intentCD]; Resolved := false |}
    replicaAC putArgs writerHeader PUSH_ABORT calm
  = (tick calm,
     [ EvClockNow;
       EvRunWithResponse
         [pushRequest writer writerHeader {| WallTime := 100; Logical := 0 |}
            PUSH_ABORT intentCD];
       EvRunAsyncTask
         (TaskResolveRemote
            [ReqResolveIntentRange
               {| RIR_Span := {| Span_Key := key "c"; Span_EndKey := key "d" |};
                  RIR_IntentTxn := T6; RIR_Status := ABORTED;
                  RIR_Poison := true |}])
         true;
       EvWgWait ],
     Ret (Some (NewError (DetailWriteIntent
                            {| Intents := [intentCD]; Resolved := true |})))).
Proof. reflexivity. Qed.

(** A writer that loses its push gets the push error, not the conflict
    error; a reader in the same position gets the conflict error back
    unresolved. *)
Example losing_push_writer_and_reader :
  snd (@processWriteIntentError scripted
         {| Intents := [intentB]; Resolved := false |}
         replicaAC putArgs writerHeader PUSH_ABORT pushFails)
  = Ret (Some pushFailed) /\
  snd (@processWriteIntentError scripted
         {| Intents := [intentB]; Resolved := false |}
         replicaAC getArgs writerHeader PUSH_TIMESTAMP pushFails)
  = Ret (Some (NewError (DetailWriteIntent
                           {| Intents := [intentB]; Resolved := false |}))).
Proof. split; reflexivity. Qed.

(** ** Further scenarios *)

(** Three intents, two of them pending: two push requests, for T4 and T6,
    stamped with the reading 100 of the clock. *)
Lemma maybePushTransactions_push_batch_witness :
  exists pusher,
    filter isPushBatch
      (snd (fst (@maybePushTransactions scripted [intentA; intentB; intentCD]
                   writerHeader PUSH_ABORT calm)))
    = [EvRunWithResponse
         [pushRequest pusher writerHeader {| WallTime := 100; Logical := 0 |}
            PUSH_ABORT intentB;
          pushRequest pusher writerHeader {| WallTime := 100; Logical := 0 |}
            PUSH_ABORT intentCD]].
Proof.
  destruct (@maybePushTransactions_push_batch scripted [intentA; intentB; intentCD]
              writerHeader PUSH_ABORT calm (tick calm)
              {| WallTime := 100; Logical := 0 |} eq_refl)
    as (pusher & reqs & ev' & Hev & _ & Hbatch & Hlen & Hnth).
  exists pusher. rewrite Hev. cbn [filter isPushBatch]. rewrite Hbatch.
  pose proof (Hnth 0%nat intentB eq_refl) as H0.
  pose proof (Hnth 1%nat intentCD eq_refl) as H1.
  destruct reqs as [|q0 [|q1 [|q2 reqs]]]; try discriminate Hlen.
  cbn in H0, H1. injection H0 as ->. injection H1 as ->. reflexivity.
Defined.

(** A single committed intent: an empty push batch goes out; when it
    returns without error the intent comes back as it is, and when it fails
    the intent is lost with the push error. *)
Lemma maybePushTransactions_nothing_pending_witness :
  snd (@maybePushTransactions scripted [intentA] plainHeader PUSH_TIMESTAMP calm)
  = Ret ([intentA], None) /\
  snd (@maybePushTransactions scripted [intentA] plainHeader PUSH_TIMESTAMP pushFails)
  = Ret ([], Some pushFailed).
Proof.
  assert (Hfinal : forall intent, In intent [intentA] -> Intent_Status intent <> PENDING)
    by (intros intent [<-|[]]; discriminate).
  split.
  - destruct (@maybePushTransactions_nothing_pending scripted [intentA] plainHeader
                PUSH_TIMESTAMP calm (tick calm) {| WallTime := 100; Logical := 0 |}
                (tick calm) [EvMakePriority 0%Z]
                {| Txn_Meta := ZeroTxnMeta; Txn_Priority := 1; Txn_Status := PENDING |}
                (tick calm) [] None Hfinal eq_refl eq_refl eq_refl)
      as (out & Hrun & Hok & _).
    rewrite Hrun. exact (Hok eq_refl).
  - destruct (@maybePushTransactions_nothing_pending scripted [intentA] plainHeader
                PUSH_TIMESTAMP pushFails (tick pushFails)
                {| WallTime := 100; Logical := 0 |}
                (tick pushFails) [EvMakePriority 0%Z]
                {| Txn_Meta := ZeroTxnMeta; Txn_Priority := 1; Txn_Status := PENDING |}
                (tick pushFails) [] (Some pushFailed) Hfinal eq_refl eq_refl eq_refl)
      as (out & Hrun & _ & Herr).
    rewrite Hrun. exact (Herr pushFailed eq_refl).
Defined.

(** One pending intent, answered with no response at all, and answered
    with a response of another kind. *)
Lemma maybePushTransactions_malformed_response_witness :
  snd (@maybePushTransactions (answering []) [intentB] plainHeader PUSH_ABORT calm)
  = Panic "index out of range" /\
  snd (@maybePushTransactions (answering [RespOther]) [intentB] plainHeader
         PUSH_ABORT calm)
  = Panic "interface conversion".
Proof.
  split.
  - apply (@maybePushTransactions_malformed_response (answering []) [intentB]
             plainHeader PUSH_ABORT calm (tick calm)
             {| WallTime := 100; Logical := 0 |} (tick calm) [EvMakePriority 0%Z]
             {| Txn_Meta := ZeroTxnMeta; Txn_Priority := 1; Txn_Status := PENDING |}
             (tick calm) [] [] eq_refl eq_refl eq_refl);
      [cbn; lia|reflexivity].
  - apply (@maybePushTransactions_malformed_response (answering [RespOther])
             [intentB] plainHeader PUSH_ABORT calm (tick calm)
             {| WallTime := 100; Logical := 0 |} (tick calm) [EvMakePriority 0%Z]
             {| Txn_Meta := ZeroTxnMeta; Txn_Priority := 1; Txn_Status := PENDING |}
             (tick calm) [] [RespOther] eq_refl eq_refl eq_refl)
      with (rest := @nil Response);
      [cbn; lia|reflexivity].
Defined.

(** One pending intent answered with its push response and a stray response
    behind it. *)
Lemma maybePushTransactions_ignores_surplus_witness :
  snd (@maybePushTransactions
         (answering [RespPushTxn (pushee T4 ABORTED); RespOther])
         [intentA; intentB] plainHeader PUSH_ABORT calm)
  = Ret ([intentA; withPushee intentB (pushee T4 ABORTED)], None).
Proof.
  apply (@maybePushTransactions_ignores_surplus
           (answering [RespPushTxn (pushee T4 ABORTED); RespOther])
           [intentA; intentB] plainHeader PUSH_ABORT calm (tick calm)
           {| WallTime := 100; Logical := 0 |} (tick calm) [EvMakePriority 0%Z]
           {| Txn_Meta := ZeroTxnMeta; Txn_Priority := 1; Txn_Status := PENDING |}
           (tick calm) [pushee T4 ABORTED] [RespOther]
           eq_refl eq_refl eq_refl eq_refl).
Defined.

(** Three intents pushed on a cluster that aborts every pushee: the spans
    that come back are those that went in. *)
Lemma maybePushTransactions_keeps_spans_witness :
  exists returned,
    snd (@maybePushTransactions scripted [intentB; intentA; intentCD] plainHeader
           PUSH_ABORT calm) = Ret (returned, None) /\
    Permutation (map Intent_Span returned)
                (map Intent_Span [intentB; intentA; intentCD]).
Proof.
  edestruct (@maybePushTransactions_keeps_spans scripted [intentB; intentA; intentCD]
               plainHeader PUSH_ABORT calm) as (pushed & Hret & _ & Hperm & _).
  - vm_compute. reflexivity.
  - eexists. split; [vm_compute; reflexivity|exact Hperm].
Defined.

(** A committed and a pending intent, and a push that fails: nothing is
    resolved, the writer gets the push error. *)
Lemma processWriteIntentError_push_failure_resolves_nothing_witness :
  exists w1 ev1 result,
    @processWriteIntentError scripted
      {| Intents := [intentA; intentB]; Resolved := false |}
      replicaAC putArgs writerHeader PUSH_ABORT pushFails
    = (w1, ev1 ++ [EvWgWait], Ret (Some result)) /\
    (result = pushFailed \/
     result = NewError (DetailWriteIntent
                          {| Intents := [intentA; intentB]; Resolved := false |})).
Proof.
  edestruct (@processWriteIntentError_push_failure_resolves_nothing scripted
               {| Intents := [intentA; intentB]; Resolved := false |}
               replicaAC putArgs writerHeader PUSH_ABORT pushFails)
    as (result & Hrun & Hresult).
  - vm_compute. reflexivity.
  - do 3 eexists. split; [exact Hrun|exact Hresult].
Defined.

(** The post-commit task of an EndTransaction whose push fails: the failure
    is logged, nothing is resolved and no GC request is issued. *)
Lemma processIntentsTask_push_failure_stops_witness :
  let item := {| args := endTxnArgs; intents := [intentB] |} in
  exists w1 ev1,
    @processIntentsTask scripted replicaAC {| WallTime := 7; Logical := 0 |}
      (args item) item item pushFails
    = (w1,
       ev1 ++ [EvWgWait;
               EvWarning "failed to push during intent resolution" pushFailed],
       Ret tt).
Proof.
  intros item. do 2 eexists.
  eapply (@processIntentsTask_push_failure_stops scripted replicaAC
            {| WallTime := 7; Logical := 0 |} (args item) item item pushFails).
  vm_compute. reflexivity.
Defined.

(** A local and a remote intent on a pool that takes both tasks. *)
Lemma resolveIntents_async_accepted_witness :
  exists ev,
    @resolveIntents scripted replicaAC [intentA; intentCD] false true calm
    = (calm, ev, Ret None) /\
    filter isWrite ev = [] /\ filter isRun ev = [] /\
    List.length (scheduled ev) = 2%nat.
Proof.
  destruct (@resolveIntents_async_accepted scripted replicaAC [intentA; intentCD]
              true calm calm calm eq_refl eq_refl)
    as (w' & ev & Hrun & Hwrite & Hnorun & Hsched & _).
  exists ev. rewrite Hsched. repeat split; auto.
  rewrite Hrun. f_equal. f_equal.
  assert (Hw : fst (fst (@resolveIntents scripted replicaAC [intentA; intentCD]
                           false true calm)) = calm) by reflexivity.
  now rewrite Hrun in Hw.
Defined.

(** On the drained cluster, with a failing write path, both modes stop at
    the local batch with the same error. *)
Lemma resolveIntents_draining_as_wait_witness :
  snd (@resolveIntents drained replicaAC [intentA; intentCD] false true writesFail)
  = snd (@resolveIntents drained replicaAC [intentA; intentCD] true true writesFail).
Proof.
  destruct (@resolveIntents_draining_as_wait drained replicaAC [intentA; intentCD]
              true writesFail) as [_ [Hout _]].
  - intros w'. reflexivity.
  - exact Hout.
Defined.

(** A caller inside a transaction and a caller outside one, pushing the
    same intent: the first is named as pusher and draws no priority, the
    second draws one priority. *)
Lemma maybePushTransactions_pusher_witness :
  (exists reqs,
      snd (fst (@maybePushTransactions scripted [intentB] writerHeader PUSH_ABORT calm))
      = [EvClockNow; EvRunWithResponse reqs]) /\
  (exists reqs,
      snd (fst (@maybePushTransactions scripted [intentB] plainHeader PUSH_ABORT calm))
      = [EvClockNow; EvMakePriority 0%Z; EvRunWithResponse reqs]).
Proof.
  split.
  - destruct (@maybePushTransactions_pusher scripted [intentB] writerHeader
                PUSH_ABORT calm) as [Htxn _].
    exact (proj1 (Htxn writer eq_refl)).
  - destruct (@maybePushTransactions_pusher scripted [intentB] plainHeader
                PUSH_ABORT calm) as [_ Hnone].
    exact (proj1 (Hnone eq_refl)).
Defined.
